(** * nice_view_disp status widget: key-label decoder, snapshot reducers, debounce

    Shallow embedding of [boards/shields/nice_view_disp/widgets/status.c].

    - C integers are [Z] with their wrap-around written out ([uint32_t]
      subtraction is taken modulo [2^32]).
    - C strings held in fixed-capacity buffers are [string]s; [snprintf]
      truncates to the capacity of the buffer it is given.
    - The widget registry ([sys_slist_t widgets]) is a [list] in registration
      order; the two file-scope statics of the keypress debounce are fields of
      the [world] record, and every canvas call is appended to a display log.
    - The two build variants selected by [HAVE_KEYCODE_EVENTS] are the two
      constructors of [keypress_status_state]. *)

From Stdlib Require Import ZArith List Bool Ascii String Lia.
From Stdlib Require Import Numbers.DecimalString.
Import ListNotations.

Local Open Scope string_scope.
Local Open Scope list_scope.
Local Open Scope Z_scope.

(** ** C library models *)

Module C.

(** [uint32_t] wrap-around. *)
Definition UINT32_MOD : Z := 2 ^ 32.

Definition uint32 (z : Z) : Z := z mod UINT32_MOD.

Definition uint8 (z : Z) : Z := z mod 256.

(** [BIT(n)]. *)
Definition BIT (n : Z) : Z := Z.shiftl 1 n.

(** The single-character string made by ["%c"]. *)
Definition char_string (c : ascii) : string := String c EmptyString.

(** ["%u"] and ["%i"] / ["%d"]: decimal rendering without padding. *)
Definition fmt_int (z : Z) : string := NilZero.string_of_int (Z.to_int z).

Definition fmt_uint (z : Z) : string := NilZero.string_of_uint (N.to_uint (Z.to_N z)).

(** [snprintf(out, out_len, ...)] where the formatted text is [s]: at most
    [out_len - 1] characters are stored, followed by the terminator; with
    [out_len = 0] nothing is written and the buffer keeps [old]. *)
Definition snprintf (out_len : nat) (old s : string) : string :=
  match out_len with
  | O => old
  | S n => substring 0 n s
  end.

(** [sprintf] into a local [char text[cap] = {}]: defined only when the text
    and its terminator fit. *)
Definition sprintf_local (cap : nat) (s : string) : option string :=
  if (String.length s <? cap)%nat then Some s else None.

End C.

(** ** State carried by the reducers *)

(** ZMK's [enum zmk_transport]: the two transports [draw_top] switches on. *)
Inductive zmk_transport : Type :=
| ZMK_TRANSPORT_USB
| ZMK_TRANSPORT_BLE.

(** ZMK's [struct zmk_endpoint_instance]: a transport and, for BLE, a
    profile. *)
Record zmk_endpoint_instance : Type := {
  transport : zmk_transport;
  ble_profile_index : Z
}.

(** The state handed to the battery reducer; [usb_present] is compiled in
    under [CONFIG_USB_DEVICE_STACK]. *)
Record battery_status_state : Type := {
  level : Z;
  usb_present : bool
}.

Record output_status_state : Type := {
  os_selected_endpoint : zmk_endpoint_instance;
  os_active_profile_index : Z;
  os_active_profile_connected : bool;
  os_active_profile_bonded : bool
}.

Record layer_status_state : Type := {
  index : Z;
  label : option string
}.

(** [struct keypress_status_state] when [HAVE_KEYCODE_EVENTS] is 1. *)
Record keycode_fields : Type := {
  usage_page : Z;
  keycode : Z;
  implicit_modifiers : Z;
  explicit_modifiers : Z
}.

(** The struct has one of two layouts, chosen at build time; [pressed] is
    common to both. *)
Inductive keypress_status_state : Type :=
| KeycodeEvent (k : keycode_fields) (pressed : bool)
| PositionEvent (position : Z) (pressed : bool).

Definition pressed (s : keypress_status_state) : bool :=
  match s with
  | KeycodeEvent _ p => p
  | PositionEvent _ p => p
  end.

(** ** Key label decoder *)

Definition default_key_labels : list string :=
  [ "TAB"; "Q"; "W"; "E"; "R"; "T"; "MUTE"; "PP"; "Y"; "U"; "I"; "O"; "P"; "BSPC";
    "ESC"; "A"; "S"; "D"; "F"; "G"; "LALT"; "RALT"; "H"; "J"; "K"; "L"; ";"; "'";
    "LSHFT"; "Z"; "X"; "C"; "V"; "B"; "N"; "M"; ","; "."; "/"; "ENTER";
    "ALT"; "LOWER"; "LCTRL"; "SPACE"; "RAISE"; "GUI" ].

(** [ARRAY_SIZE(default_key_labels)]. *)
Definition ARRAY_SIZE_default_key_labels : Z :=
  Z.of_nat (List.length default_key_labels).

(** [NULL] is [None]. *)
Definition label_for_position (position : Z) : option string :=
  if position <? ARRAY_SIZE_default_key_labels
  then nth_error default_key_labels (Z.to_nat position)
  else None.

(** [shifted] of [format_key_label]. *)
Definition shifted (k : keycode_fields) : bool :=
  let all_modifiers := C.uint8 (Z.lor (implicit_modifiers k) (explicit_modifiers k)) in
  negb (Z.land all_modifiers (Z.lor (C.BIT 1) (C.BIT 5)) =? 0).

(** The double-quote character of the C literal for usage id [0x34]. *)
Definition dquote : string := C.char_string (ascii_of_nat 34).

(** The text handed to [snprintf] by the [switch] on page [0x07]; [None] is
    the [default: break]. *)
Definition keyboard_switch (kc : Z) (sh : bool) : option string :=
  match kc with
  | 0x1e => Some (if sh then "!" else "1")
  | 0x1f => Some (if sh then "@" else "2")
  | 0x20 => Some (if sh then "#" else "3")
  | 0x21 => Some (if sh then "$" else "4")
  | 0x22 => Some (if sh then "%" else "5")
  | 0x23 => Some (if sh then "^" else "6")
  | 0x24 => Some (if sh then "&" else "7")
  | 0x25 => Some (if sh then "*" else "8")
  | 0x26 => Some (if sh then "(" else "9")
  | 0x27 => Some (if sh then ")" else "0")
  | 0x28 => Some "ENTER"
  | 0x29 => Some "ESC"
  | 0x2a => Some "BSPC"
  | 0x2b => Some "TAB"
  | 0x2c => Some "SPACE"
  | 0x2d => Some (if sh then "_" else "-")
  | 0x2e => Some (if sh then "+" else "=")
  | 0x2f => Some (if sh then "{" else "[")
  | 0x30 => Some (if sh then "}" else "]")
  | 0x31 => Some (if sh then "|" else "\")
  | 0x33 => Some (if sh then ":" else ";")
  | 0x34 => Some (if sh then dquote else "'")
  | 0x35 => Some (if sh then "~" else "`")
  | 0x36 => Some (if sh then "<" else ",")
  | 0x37 => Some (if sh then ">" else ".")
  | 0x38 => Some (if sh then "?" else "/")
  | 0x3a => Some "F1"
  | 0x3b => Some "F2"
  | 0x3c => Some "F3"
  | 0x3d => Some "F4"
  | 0x3e => Some "F5"
  | 0x3f => Some "F6"
  | 0x40 => Some "F7"
  | 0x41 => Some "F8"
  | 0x42 => Some "F9"
  | 0x43 => Some "F10"
  | 0x44 => Some "F11"
  | 0x45 => Some "F12"
  | 0x4a => Some "HOME"
  | 0x4b => Some "PGUP"
  | 0x4c => Some "DEL"
  | 0x4d => Some "END"
  | 0x4e => Some "PGDN"
  | 0x4f => Some "RIGHT"
  | 0x50 => Some "LEFT"
  | 0x51 => Some "DOWN"
  | 0x52 => Some "UP"
  | 0xe0 => Some "LCTRL"
  | 0xe1 => Some "LSHFT"
  | 0xe2 => Some "LALT"
  | 0xe3 => Some "LGUI"
  | 0xe4 => Some "RCTRL"
  | 0xe5 => Some "RSHFT"
  | 0xe6 => Some "RALT"
  | 0xe7 => Some "RGUI"
  | _ => None
  end.

(** The [switch] on page [0x0c]: every arm, the default included, formats a
    label and returns [true]. *)
Definition consumer_switch (kc : Z) : string :=
  match kc with
  | 0xe2 => "MUTE"
  | 0xe9 => "VOL+"
  | 0xea => "VOL-"
  | 0xb5 => "NEXT"
  | 0xb6 => "PREV"
  | 0xcd => "PLAY"
  | _ => "MEDIA"
  end.

(** ['A' + (char)(keycode - 0x04)]. *)
Definition letter_char (kc : Z) : ascii :=
  ascii_of_N (Z.to_N ((65 + C.uint8 (kc - 0x04)) mod 256)).

(** [format_key_label(out, out_len, state)]: the buffer after the call and
    the returned flag.  On [false] the buffer is untouched. *)
Definition format_key_label (out : string) (out_len : nat)
    (state : keypress_status_state) : string * bool :=
  match state with
  | KeycodeEvent k _ =>
      if usage_page k =? 0x07 then
        if (0x04 <=? keycode k) && (keycode k <=? 0x1d) then
          (C.snprintf out_len out (C.char_string (letter_char (keycode k))), true)
        else
          match keyboard_switch (keycode k) (shifted k) with
          | Some s => (C.snprintf out_len out s, true)
          | None => (out, false)
          end
      else if usage_page k =? 0x0c then
        (C.snprintf out_len out (consumer_switch (keycode k)), true)
      else (out, false)
  | PositionEvent position _ =>
      match label_for_position position with
      | Some l => (C.snprintf out_len out l, true)
      | None => (out, false)
      end
  end.


(** The usage ids that have a [case] in the page-[0x07] switch. *)
Definition keyboard_table_ids : list Z :=
  [ 0x1e; 0x1f; 0x20; 0x21; 0x22; 0x23; 0x24; 0x25; 0x26; 0x27;
    0x28; 0x29; 0x2a; 0x2b; 0x2c; 0x2d; 0x2e; 0x2f; 0x30; 0x31;
    0x33; 0x34; 0x35; 0x36; 0x37; 0x38;
    0x3a; 0x3b; 0x3c; 0x3d; 0x3e; 0x3f; 0x40; 0x41; 0x42; 0x43; 0x44; 0x45;
    0x4a; 0x4b; 0x4c; 0x4d; 0x4e; 0x4f; 0x50; 0x51; 0x52;
    0xe0; 0xe1; 0xe2; 0xe3; 0xe4; 0xe5; 0xe6; 0xe7 ].

(** The six usage ids that have a [case] of their own on page [0x0c]. *)
Definition consumer_table_ids : list Z :=
  [ 0xe2; 0xe9; 0xea; 0xb5; 0xb6; 0xcd ].

(** ** Widget snapshot and canvas calls *)

(** Modelled from the spec: [struct status_state] is declared in a header that
    is not part of the sources; its fields are the ones section 3 lists for the
    status snapshot, under the names [status.c] uses for them. *)
Record status_state : Type := {
  battery : Z;
  charging : bool;
  selected_endpoint : zmk_endpoint_instance;
  active_profile_index : Z;
  active_profile_connected : bool;
  active_profile_bonded : bool;
  layer_index : Z;
  layer_label : option string;
  last_key : string;
  show_last_key : bool
}.

(** A widget instance: its LVGL object handle and its snapshot.  The pixel
    buffers [cbuf], [cbuf2], [cbuf3] belong to the renderer. *)
Record zmk_widget_status : Type := {
  obj : nat;
  state : status_state
}.

Inductive lv_color : Type := LVGL_FOREGROUND | LVGL_BACKGROUND.

Inductive lv_font : Type :=
| lv_font_montserrat_14
| lv_font_montserrat_16
| lv_font_montserrat_18.

Inductive lv_text_align : Type := LV_TEXT_ALIGN_RIGHT | LV_TEXT_ALIGN_CENTER.

Record lv_draw_label_dsc : Type := {
  label_color : lv_color;
  label_font : lv_font;
  label_align : lv_text_align
}.

Record lv_draw_arc_dsc : Type := {
  arc_color : lv_color;
  arc_width : Z
}.

Definition init_label_dsc (c : lv_color) (f : lv_font) (a : lv_text_align)
    : lv_draw_label_dsc :=
  {| label_color := c; label_font := f; label_align := a |}.

Definition init_arc_dsc (c : lv_color) (w : Z) : lv_draw_arc_dsc :=
  {| arc_color := c; arc_width := w |}.

(** One call on a canvas. *)
Inductive canvas_op : Type :=
| lv_canvas_draw_rect (x y w h : Z) (c : lv_color)
| lv_canvas_draw_text (x y max_w : Z) (dsc : lv_draw_label_dsc) (txt : string)
| lv_canvas_draw_arc (x y r start_angle end_angle : Z) (dsc : lv_draw_arc_dsc)
| draw_battery (battery_level : Z) (is_charging : bool)
| rotate_canvas.

(** A redraw of one zone: the widget object, the child canvas
    ([lv_obj_get_child(widget, n)]) and the calls made on it. *)
Record draw_call : Type := {
  dc_obj : nat;
  dc_canvas : nat;
  dc_ops : list canvas_op
}.

Definition utf8_3 (a b c : nat) : string :=
  String (ascii_of_nat a) (String (ascii_of_nat b) (String (ascii_of_nat c) EmptyString)).

(** The symbol macros of LVGL that [status.c] draws.  They come from LVGL's
    headers; [LV_SYMBOL_BLUETOOTH] is [None] for an LVGL that does not define
    it, which is what [#ifdef LV_SYMBOL_BLUETOOTH] tests. *)
Record lv_symbols : Type := {
  LV_SYMBOL_USB : string;
  LV_SYMBOL_BLUETOOTH : option string;
  LV_SYMBOL_CLOSE : string;
  LV_SYMBOL_SETTINGS : string
}.

(** LVGL's built-in symbol font (private-use code points, UTF-8). *)
Definition lvgl_builtin_symbols : lv_symbols :=
  {| LV_SYMBOL_USB := utf8_3 239 138 135;
     LV_SYMBOL_BLUETOOTH := Some (utf8_3 239 138 147);
     LV_SYMBOL_CLOSE := utf8_3 239 128 141;
     LV_SYMBOL_SETTINGS := utf8_3 239 128 147 |}.

(** The same font in an LVGL without the bluetooth symbol. *)
Definition lvgl_symbols_without_bluetooth : lv_symbols :=
  {| LV_SYMBOL_USB := utf8_3 239 138 135;
     LV_SYMBOL_BLUETOOTH := None;
     LV_SYMBOL_CLOSE := utf8_3 239 128 141;
     LV_SYMBOL_SETTINGS := utf8_3 239 128 147 |}.

Definition KEYPRESS_RENDER_INTERVAL_MS : Z := 100.

(** The process-wide state of [status.c] together with the display: the
    registry, the two debounce statics, and every redraw made so far. *)
Record world : Type := {
  widgets : list zmk_widget_status;
  last_keypress_render_ms : Z;
  has_last_keypress_render : bool;
  display : list draw_call
}.

(** Static initialisation: empty registry, zeroed statics. *)
Definition initial_world : world :=
  {| widgets := [];
     last_keypress_render_ms := 0;
     has_last_keypress_render := false;
     display := [] |}.

(** [SYS_SLIST_FOR_EACH_CONTAINER(&widgets, widget, node) { body }]: the body
    runs on each widget in list order; it mutates the widget and redraws. *)
Fixpoint for_each_widget
    (body : zmk_widget_status -> zmk_widget_status * list draw_call)
    (ws : list zmk_widget_status) : list zmk_widget_status * list draw_call :=
  match ws with
  | [] => ([], [])
  | w :: rest =>
      let (w', d) := body w in
      let (rest', d') := for_each_widget body rest in
      (w' :: rest', d ++ d')
  end.

(** The texts a redraw puts on its canvas, in drawing order. *)
Definition drawn_texts (d : draw_call) : list string :=
  flat_map (fun op => match op with
                      | lv_canvas_draw_text _ _ _ _ txt => [ txt ]
                      | _ => []
                      end) (dc_ops d).

(** The filled (width 9, radius 9) arcs of a redraw: the selection marks. *)
Definition selection_marks (d : draw_call) : list canvas_op :=
  filter (fun op => match op with
                    | lv_canvas_draw_arc _ _ 9 _ _ _ => true
                    | _ => false
                    end) (dc_ops d).



(** What reaches [status.c] from outside, one call at a time: a widget being
    registered, or one of the four update callbacks being run by its
    listener.  A key event comes with the uptime read while it is handled. *)
Inductive input : Type :=
| Register (widget : zmk_widget_status)
| BatteryChanged (st : battery_status_state)
| OutputChanged (st : output_status_state)
| LayerChanged (st : layer_status_state)
| KeyChanged (st : keypress_status_state) (now : Z).

Definition is_press (i : input) : bool :=
  match i with
  | KeyChanged st _ => pressed st
  | _ => false
  end.

(** The device-state getters of ZMK the [*_get_state] functions call. *)
Record device : Type := {
  zmk_battery_state_of_charge : Z;
  zmk_usb_is_powered : bool;
  zmk_endpoints_selected : zmk_endpoint_instance;
  zmk_ble_active_profile_index : Z;
  zmk_ble_active_profile_is_connected : bool;
  zmk_ble_active_profile_is_open : bool;
  zmk_keymap_highest_layer_active : Z;
  zmk_keymap_layer_index_to_id : Z -> Z;
  zmk_keymap_layer_name : Z -> option string
}.

(** The fields [status.c] reads of [struct zmk_keycode_state_changed]. *)
Record zmk_keycode_state_changed : Type := {
  ev_usage_page : Z;
  ev_keycode : Z;
  ev_implicit_modifiers : Z;
  ev_explicit_modifiers : Z;
  ev_state : bool
}.

(** The fields [status.c] reads of [struct zmk_position_state_changed]. *)
Record zmk_position_state_changed : Type := {
  ev_position : Z;
  ev_position_state : bool
}.

(** ** A concrete build and run

    Values used to evaluate the reducers below: a snapshot in zeroed memory,
    two widget instances, and a few events. *)

Definition zeroed_state : status_state :=
  {| battery := 0;
     charging := false;
     selected_endpoint := {| transport := ZMK_TRANSPORT_USB; ble_profile_index := 0 |};
     active_profile_index := 0;
     active_profile_connected := false;
     active_profile_bonded := false;
     layer_index := 0;
     layer_label := None;
     last_key := EmptyString;
     show_last_key := false |}.

Definition widget_a : zmk_widget_status := {| obj := 1; state := zeroed_state |}.

Definition widget_b : zmk_widget_status := {| obj := 2; state := zeroed_state |}.

(** A widget whose snapshot says charging when it is registered:
    [zmk_widget_status_init] takes the snapshot as its caller left it. *)
Definition widget_c : zmk_widget_status :=
  {| obj := 3;
     state := {| battery := 0;
                 charging := true;
                 selected_endpoint := selected_endpoint zeroed_state;
                 active_profile_index := 0;
                 active_profile_connected := false;
                 active_profile_bonded := false;
                 layer_index := 0;
                 layer_label := None;
                 last_key := EmptyString;
                 show_last_key := false |} |}.

(** Usage page 0x07, usage id 0x14 is the letter Q. *)
Definition key_q (is_pressed : bool) : keypress_status_state :=
  KeycodeEvent {| usage_page := 0x07; keycode := 0x14;
                  implicit_modifiers := 0; explicit_modifiers := 0 |} is_pressed.

(** Usage page 0x07, usage id 0x1e with left shift held. *)
Definition key_bang (is_pressed : bool) : keypress_status_state :=
  KeycodeEvent {| usage_page := 0x07; keycode := 0x1e;
                  implicit_modifiers := 0; explicit_modifiers := C.BIT 1 |} is_pressed.

(** One registered widget, nothing pressed yet. *)
Definition one_widget_world : world :=
  {| widgets := [ widget_a ];
     last_keypress_render_ms := 0;
     has_last_keypress_render := false;
     display := [] |}.

(** A device on BLE profile 1, bonded and connected, with layer 2 named. *)
Definition bench_device : device :=
  {| zmk_battery_state_of_charge := 80;
     zmk_usb_is_powered := true;
     zmk_endpoints_selected := {| transport := ZMK_TRANSPORT_BLE; ble_profile_index := 1 |};
     zmk_ble_active_profile_index := 1;
     zmk_ble_active_profile_is_connected := true;
     zmk_ble_active_profile_is_open := false;
     zmk_keymap_highest_layer_active := 2;
     zmk_keymap_layer_index_to_id := fun i => i;
     zmk_keymap_layer_name := fun id => if id =? 2 then Some "NAV" else None |}.

(** A snapshot whose profile index is outside the five slots. *)
Definition no_profile_state : status_state :=
  {| battery := 0;
     charging := false;
     selected_endpoint := {| transport := ZMK_TRANSPORT_USB; ble_profile_index := 0 |};
     active_profile_index := -1;
     active_profile_connected := false;
     active_profile_bonded := false;
     layer_index := 0;
     layer_label := None;
     last_key := EmptyString;
     show_last_key := false |}.

Section Reducers.

(** Build-time constants the sources take from elsewhere. *)

(** [sizeof(widget->state.last_key)], the capacity of the last-key buffer. *)
Variable LAST_KEY_SIZE : nat.

(** [CANVAS_SIZE]. *)
Variable CANVAS_SIZE : Z.

(** [IS_ENABLED(CONFIG_USB_DEVICE_STACK)]. *)
Variable CONFIG_USB_DEVICE_STACK : bool.

(** The symbols of the LVGL the widget is built against. *)
Variable lvgl : lv_symbols.

(** *** Zone drawing *)

(** [BLE_CONNECTED_SYMBOL]: LVGL's bluetooth symbol when it is defined, the
    text "BT" otherwise. *)
Definition BLE_CONNECTED_SYMBOL : string :=
  match LV_SYMBOL_BLUETOOTH lvgl with
  | Some symbol => symbol
  | None => "BT"
  end.

Definition output_text (s : status_state) : string :=
  match transport (selected_endpoint s) with
  | ZMK_TRANSPORT_USB => LV_SYMBOL_USB lvgl
  | ZMK_TRANSPORT_BLE =>
      if active_profile_bonded s then
        if active_profile_connected s then BLE_CONNECTED_SYMBOL
        else LV_SYMBOL_CLOSE lvgl
      else LV_SYMBOL_SETTINGS lvgl
  end.

Definition draw_top (widget : nat) (s : status_state) : draw_call :=
  let label_dsc := init_label_dsc LVGL_FOREGROUND lv_font_montserrat_16 LV_TEXT_ALIGN_RIGHT in
  let label_dsc_key := init_label_dsc LVGL_FOREGROUND lv_font_montserrat_14 LV_TEXT_ALIGN_CENTER in
  {| dc_obj := widget;
     dc_canvas := 0;
     dc_ops :=
       [ lv_canvas_draw_rect 0 0 CANVAS_SIZE CANVAS_SIZE LVGL_BACKGROUND;
         draw_battery (battery s) (charging s);
         lv_canvas_draw_text 0 0 CANVAS_SIZE label_dsc (output_text s);
         lv_canvas_draw_rect 0 21 68 42 LVGL_FOREGROUND;
         lv_canvas_draw_rect 1 22 66 40 LVGL_BACKGROUND ]
       ++ (if show_last_key s
           then [ lv_canvas_draw_text 0 35 68 label_dsc_key (last_key s) ]
           else [])
       ++ [ rotate_canvas ] |}.

Definition circle_offsets : list (Z * Z) :=
  [ (13, 13); (55, 13); (34, 34); (13, 55); (55, 55) ].

(** [bool selected = i == state->active_profile_index;] *)
Definition slot_selected (s : status_state) (i : nat) : bool :=
  Z.of_nat i =? active_profile_index s.

(** The arc with which a selected slot is filled. *)
Definition filled_arc (i : nat) : canvas_op :=
  let '(cx, cy) := nth i circle_offsets (0, 0) in
  lv_canvas_draw_arc cx cy 9 0 359 (init_arc_dsc LVGL_FOREGROUND 9).

(** One iteration of the loop of [draw_middle]. *)
Definition draw_middle_slot (s : status_state) (i : nat) : list canvas_op :=
  let selected := slot_selected s i in
  let '(cx, cy) := nth i circle_offsets (0, 0) in
  let label_dsc := init_label_dsc LVGL_FOREGROUND lv_font_montserrat_18 LV_TEXT_ALIGN_CENTER in
  let label_dsc_black := init_label_dsc LVGL_BACKGROUND lv_font_montserrat_18 LV_TEXT_ALIGN_CENTER in
  [ lv_canvas_draw_arc cx cy 13 0 360 (init_arc_dsc LVGL_FOREGROUND 2) ]
  ++ (if selected then [ filled_arc i ] else [])
  ++ [ lv_canvas_draw_text (cx - 8) (cy - 10) 16
         (if selected then label_dsc_black else label_dsc)
         (C.snprintf 2 EmptyString (C.fmt_int (Z.of_nat i + 1))) ].

(** The slot states of one redraw, [for (int i = 0; i < 5; i++)]. *)
Definition slot_states (s : status_state) : list bool :=
  map (slot_selected s) (seq 0 5).

Definition draw_middle (widget : nat) (s : status_state) : draw_call :=
  {| dc_obj := widget;
     dc_canvas := 1;
     dc_ops :=
       [ lv_canvas_draw_rect 0 0 CANVAS_SIZE CANVAS_SIZE LVGL_BACKGROUND ]
       ++ flat_map (draw_middle_slot s) (seq 0 5)
       ++ [ rotate_canvas ] |}.

(** The text [draw_bottom] hands to [lv_canvas_draw_text].  The synthesized
    text is built in [char text[10]] by an unbounded [sprintf];
    [layer_text_fits] below shows that it fits for every 8-bit layer index. *)
Definition layer_text (s : status_state) : string :=
  match layer_label s with
  | None => ("LAYER " ++ C.fmt_int (layer_index s))%string
  | Some l =>
      if (String.length l =? 0)%nat
      then ("LAYER " ++ C.fmt_int (layer_index s))%string
      else l
  end.

Definition draw_bottom (widget : nat) (s : status_state) : draw_call :=
  let label_dsc := init_label_dsc LVGL_FOREGROUND lv_font_montserrat_14 LV_TEXT_ALIGN_CENTER in
  {| dc_obj := widget;
     dc_canvas := 2;
     dc_ops :=
       [ lv_canvas_draw_rect 0 0 CANVAS_SIZE CANVAS_SIZE LVGL_BACKGROUND;
         lv_canvas_draw_text 0 5 68 label_dsc (layer_text s);
         rotate_canvas ] |}.
(** *** Battery reducer *)

Definition set_battery_status (widget : zmk_widget_status)
    (st : battery_status_state) : zmk_widget_status * list draw_call :=
  let s := state widget in
  let s' :=
    {| battery := level st;
       charging := if CONFIG_USB_DEVICE_STACK then usb_present st else charging s;
       selected_endpoint := selected_endpoint s;
       active_profile_index := active_profile_index s;
       active_profile_connected := active_profile_connected s;
       active_profile_bonded := active_profile_bonded s;
       layer_index := layer_index s;
       layer_label := layer_label s;
       last_key := last_key s;
       show_last_key := show_last_key s |} in
  ({| obj := obj widget; state := s' |}, [ draw_top (obj widget) s' ]).

Definition battery_status_update_cb (st : battery_status_state) (w : world) : world :=
  let (ws, d) := for_each_widget (fun widget => set_battery_status widget st) (widgets w) in
  {| widgets := ws;
     last_keypress_render_ms := last_keypress_render_ms w;
     has_last_keypress_render := has_last_keypress_render w;
     display := display w ++ d |}.

(** *** Output reducer *)

Definition set_output_status (widget : zmk_widget_status)
    (st : output_status_state) : zmk_widget_status * list draw_call :=
  let s := state widget in
  let s' :=
    {| battery := battery s;
       charging := charging s;
       selected_endpoint := os_selected_endpoint st;
       active_profile_index := os_active_profile_index st;
       active_profile_connected := os_active_profile_connected st;
       active_profile_bonded := os_active_profile_bonded st;
       layer_index := layer_index s;
       layer_label := layer_label s;
       last_key := last_key s;
       show_last_key := show_last_key s |} in
  ({| obj := obj widget; state := s' |},
   [ draw_top (obj widget) s'; draw_middle (obj widget) s' ]).

Definition output_status_update_cb (st : output_status_state) (w : world) : world :=
  let (ws, d) := for_each_widget (fun widget => set_output_status widget st) (widgets w) in
  {| widgets := ws;
     last_keypress_render_ms := last_keypress_render_ms w;
     has_last_keypress_render := has_last_keypress_render w;
     display := display w ++ d |}.

(** *** Layer reducer *)

Definition set_layer_status (widget : zmk_widget_status)
    (st : layer_status_state) : zmk_widget_status * list draw_call :=
  let s := state widget in
  let s' :=
    {| battery := battery s;
       charging := charging s;
       selected_endpoint := selected_endpoint s;
       active_profile_index := active_profile_index s;
       active_profile_connected := active_profile_connected s;
       active_profile_bonded := active_profile_bonded s;
       layer_index := index st;
       layer_label := label st;
       last_key := last_key s;
       show_last_key := show_last_key s |} in
  ({| obj := obj widget; state := s' |}, [ draw_bottom (obj widget) s' ]).

Definition layer_status_update_cb (st : layer_status_state) (w : world) : world :=
  let (ws, d) := for_each_widget (fun widget => set_layer_status widget st) (widgets w) in
  {| widgets := ws;
     last_keypress_render_ms := last_keypress_render_ms w;
     has_last_keypress_render := has_last_keypress_render w;
     display := display w ++ d |}.

(** *** Keypress reducer *)

(** The placeholder written when [format_key_label] returns [false]:
    ["KEY"] in the keycode build, ["K%u"] of the position otherwise. *)
Definition placeholder (st : keypress_status_state) : string :=
  match st with
  | KeycodeEvent _ _ => "KEY"
  | PositionEvent position _ => ("K" ++ C.fmt_uint (C.uint32 position))%string
  end.

(** The contents of [last_key] after [set_keypress_status]. *)
Definition key_label (old : string) (st : keypress_status_state) : string :=
  let (buf, matched) := format_key_label old LAST_KEY_SIZE st in
  if matched then buf else C.snprintf LAST_KEY_SIZE buf (placeholder st).

Definition set_keypress_status (widget : zmk_widget_status)
    (st : keypress_status_state) : zmk_widget_status * list draw_call :=
  let s := state widget in
  let s' :=
    {| battery := battery s;
       charging := charging s;
       selected_endpoint := selected_endpoint s;
       active_profile_index := active_profile_index s;
       active_profile_connected := active_profile_connected s;
       active_profile_bonded := active_profile_bonded s;
       layer_index := layer_index s;
       layer_label := layer_label s;
       last_key := key_label (last_key s) st;
       show_last_key := true |} in
  ({| obj := obj widget; state := s' |}, [ draw_top (obj widget) s' ]).

(** The debounce test of [keypress_status_update_cb]; [now - last] is a
    [uint32_t] difference. *)
Definition debounced (now : Z) (w : world) : bool :=
  has_last_keypress_render w
  && (C.uint32 (now - last_keypress_render_ms w) <? KEYPRESS_RENDER_INTERVAL_MS).

(** [now] is the value [k_uptime_get_32()] returns during the call. *)
Definition keypress_status_update_cb (st : keypress_status_state) (now : Z)
    (w : world) : world :=
  if negb (pressed st) then w
  else if debounced now w then w
  else
    let (ws, d) := for_each_widget (fun widget => set_keypress_status widget st) (widgets w) in
    {| widgets := ws;
       last_keypress_render_ms := now;
       has_last_keypress_render := true;
       display := display w ++ d |}.

(** What [set_keypress_status] leaves in a widget. *)
Definition keypress_applied (st : keypress_status_state)
    (widget : zmk_widget_status) : zmk_widget_status :=
  fst (set_keypress_status widget st).

(** [sys_slist_append(&widgets, &widget->node)] of [zmk_widget_status_init]:
    a new instance joins the registry at its end. *)
Definition sys_slist_append (widget : zmk_widget_status) (w : world) : world :=
  {| widgets := widgets w ++ [ widget ];
     last_keypress_render_ms := last_keypress_render_ms w;
     has_last_keypress_render := has_last_keypress_render w;
     display := display w |}.

(** One call, and a sequence of calls handled one after the other. *)
Definition step (w : world) (i : input) : world :=
  match i with
  | Register widget => sys_slist_append widget w
  | BatteryChanged st => battery_status_update_cb st w
  | OutputChanged st => output_status_update_cb st w
  | LayerChanged st => layer_status_update_cb st w
  | KeyChanged st now => keypress_status_update_cb st now w
  end.

Definition run (w : world) (history : list input) : world :=
  fold_left step history w.

(** *** Reading the current state

    Each listener is declared with a function that builds the reducer's
    state from the event that woke it, or from the device when there is no
    such event ([NULL], here [None]). *)

(** [ev] is [as_zmk_battery_state_changed(eh)]: the event's state of charge,
    or [None] when the listener was woken by something else. *)
Definition battery_status_get_state (dev : device) (ev : option Z)
    : battery_status_state :=
  {| level := match ev with
              | Some state_of_charge => state_of_charge
              | None => zmk_battery_state_of_charge dev
              end;
     usb_present := if CONFIG_USB_DEVICE_STACK then zmk_usb_is_powered dev else false |}.

Definition output_status_get_state (dev : device) : output_status_state :=
  {| os_selected_endpoint := zmk_endpoints_selected dev;
     os_active_profile_index := zmk_ble_active_profile_index dev;
     os_active_profile_connected := zmk_ble_active_profile_is_connected dev;
     os_active_profile_bonded := negb (zmk_ble_active_profile_is_open dev) |}.

Definition layer_status_get_state (dev : device) : layer_status_state :=
  let idx := zmk_keymap_highest_layer_active dev in
  {| index := idx;
     label := zmk_keymap_layer_name dev (zmk_keymap_layer_index_to_id dev idx) |}.

(** [keypress_status_get_state] when [HAVE_KEYCODE_EVENTS] is 1; the stores
    into the [uint8_t] and [uint32_t] fields convert. *)
Definition keypress_status_get_state_keycode (ev : option zmk_keycode_state_changed)
    : keypress_status_state :=
  match ev with
  | Some e =>
      KeycodeEvent {| usage_page := C.uint8 (ev_usage_page e);
                      keycode := C.uint32 (ev_keycode e);
                      implicit_modifiers := C.uint8 (ev_implicit_modifiers e);
                      explicit_modifiers := C.uint8 (ev_explicit_modifiers e) |}
                   (ev_state e)
  | None =>
      KeycodeEvent {| usage_page := 0; keycode := 0;
                      implicit_modifiers := 0; explicit_modifiers := 0 |} false
  end.

(** [keypress_status_get_state] when [HAVE_KEYCODE_EVENTS] is 0. *)
Definition keypress_status_get_state_position (ev : option zmk_position_state_changed)
    : keypress_status_state :=
  match ev with
  | Some e => PositionEvent (C.uint32 (ev_position e)) (ev_position_state e)
  | None => PositionEvent 0 false
  end.

(** [zmk_widget_status_obj]. *)
Definition zmk_widget_status_obj (widget : zmk_widget_status) : nat := obj widget.

(** The widgets a sequence of calls registers, in order. *)
Definition registered (history : list input) : list zmk_widget_status :=
  flat_map (fun i => match i with
                     | Register widget => [ widget ]
                     | _ => []
                     end) history.

(** The usage ids of page [0x07] whose [case] chooses between two texts. *)
Definition shift_sensitive_ids : list Z :=
  [ 0x1e; 0x1f; 0x20; 0x21; 0x22; 0x23; 0x24; 0x25; 0x26; 0x27;
    0x2d; 0x2e; 0x2f; 0x30; 0x31; 0x33; 0x34; 0x35; 0x36; 0x37; 0x38 ].

(** The keypress fields of a snapshot. *)
Definition keypress_fields (widget : zmk_widget_status) : string * bool :=
  (last_key (state widget), show_last_key (state widget)).

(** The fields of a snapshot each of the other reducers writes. *)
Definition battery_fields (widget : zmk_widget_status) : Z * bool :=
  (battery (state widget), charging (state widget)).

Definition output_fields (widget : zmk_widget_status)
    : zmk_endpoint_instance * Z * bool * bool :=
  (selected_endpoint (state widget), active_profile_index (state widget),
   active_profile_connected (state widget), active_profile_bonded (state widget)).

Definition layer_fields (widget : zmk_widget_status) : Z * option string :=
  (layer_index (state widget), layer_label (state widget)).

(** ** Properties of the C library models *)

Lemma substring_all (s : string) (n : nat) :
  (String.length s <= n)%nat -> substring 0 n s = s.
Proof.
  revert n; induction s as [|c s IH]; intros n Hn.
  - destruct n; reflexivity.
  - destruct n as [|n]; simpl in *; [lia|].
    rewrite IH by lia. reflexivity.
Qed.

Lemma snprintf_fits (n : nat) (old s : string) :
  (String.length s < n)%nat -> C.snprintf n old s = s.
Proof.
  intros H. destruct n as [|n]; [lia|].
  simpl. apply substring_all. lia.
Qed.

Lemma testbit_34 (n : Z) :
  Z.testbit 34 n = (n =? 1) || (n =? 5).
Proof.
  destruct (Z.ltb_spec n 0) as [Hneg|Hpos].
  - rewrite Z.testbit_neg_r by lia.
    destruct (Z.eqb_spec n 1); [lia|]. destruct (Z.eqb_spec n 5); [lia|]. reflexivity.
  - destruct (Z.ltb_spec n 6) as [Hlow|Hhigh].
    + assert (Hc : n = 0 \/ n = 1 \/ n = 2 \/ n = 3 \/ n = 4 \/ n = 5) by lia.
      destruct Hc as [-> | [-> | [-> | [-> | [-> | ->]]]]]; reflexivity.
    + rewrite Z.bits_above_log2 by (cbn; lia).
      destruct (Z.eqb_spec n 1); [lia|]. destruct (Z.eqb_spec n 5); [lia|]. reflexivity.
Qed.

Lemma land_34_zero (x : Z) :
  (Z.land x 34 =? 0) = negb (Z.testbit x 1 || Z.testbit x 5).
Proof.
  destruct (Z.eqb_spec (Z.land x 34) 0) as [E|E].
  - assert (H1 : Z.testbit (Z.land x 34) 1 = false) by (rewrite E; apply Z.bits_0).
    assert (H5 : Z.testbit (Z.land x 34) 5 = false) by (rewrite E; apply Z.bits_0).
    rewrite Z.land_spec, testbit_34 in H1, H5.
    change ((1 =? 1) || (1 =? 5)) with true in H1.
    change ((5 =? 1) || (5 =? 5)) with true in H5.
    rewrite andb_true_r in H1, H5.
    rewrite H1, H5. reflexivity.
  - destruct (Z.testbit x 1) eqn:H1; [reflexivity|].
    destruct (Z.testbit x 5) eqn:H5; [reflexivity|].
    exfalso. apply E. apply Z.bits_inj'. intros n Hn.
    rewrite Z.land_spec, testbit_34, Z.bits_0.
    destruct (Z.eqb_spec n 1) as [->|]; [rewrite H1; reflexivity|].
    destruct (Z.eqb_spec n 5) as [->|]; [rewrite H5; reflexivity|].
    apply andb_false_r.
Qed.

Lemma shifted_bits (k : keycode_fields) :
  shifted k =
  Z.testbit (Z.lor (implicit_modifiers k) (explicit_modifiers k)) 1
  || Z.testbit (Z.lor (implicit_modifiers k) (explicit_modifiers k)) 5.
Proof.
  unfold shifted, C.uint8. change (Z.lor (C.BIT 1) (C.BIT 5)) with 34.
  rewrite land_34_zero, negb_involutive.
  change 256 with (2 ^ 8).
  rewrite !Z.mod_pow2_bits_low by lia. reflexivity.
Qed.

Ltac switch_default :=
  match goal with
  | |- forall k : Z, _ =>
      let p := fresh "p" in
      intros [|p|p]; intros; try reflexivity;
      do 8 (try (destruct p as [p|p|]; try reflexivity));
      exfalso;
      match goal with H : ~ In _ _ |- _ => apply H; cbn; tauto end
  end.

Lemma keyboard_switch_default :
  forall kc : Z, forall sh : bool,
    ~ In kc keyboard_table_ids -> keyboard_switch kc sh = None.
Proof. switch_default. Qed.

Lemma consumer_switch_default :
  forall kc : Z, ~ In kc consumer_table_ids -> consumer_switch kc = "MEDIA".
Proof. switch_default. Qed.

Lemma keyboard_switch_entry :
  forall kc : Z, forall sh : bool,
    In kc keyboard_table_ids -> keyboard_switch kc sh <> None.
Proof.
  intros kc sh H. cbn in H.
  repeat (destruct H as [<- | H]; [cbn; discriminate|]).
  contradiction.
Qed.

(** ** The decoder *)

(** C2. Shift sensitivity of the rich-form decoder.  On usage page 0x07,
    usage id 0x1E is matched and formats "!" when [implicit_modifiers] is 0
    and bit 1 of [explicit_modifiers] is set, and "1" when neither modifier
    byte has bit 1 or bit 5 set (the label is stored whole in any buffer of
    two bytes or more); the [shifted] flag is bit 1 or bit 5 of the bitwise
    OR of the two modifier bytes. *)
Theorem shift_sensitivity :
  forall (out : string) (out_len : nat) (imp exp : Z) (p : bool),
    let k := {| usage_page := 0x07; keycode := 0x1e;
                implicit_modifiers := imp; explicit_modifiers := exp |} in
    shifted k = Z.testbit (Z.lor imp exp) 1 || Z.testbit (Z.lor imp exp) 5
    /\ (imp = 0 -> Z.testbit exp 1 = true ->
        format_key_label out out_len (KeycodeEvent k p)
        = (C.snprintf out_len out "!", true)
        /\ ((2 <= out_len)%nat ->
            format_key_label out out_len (KeycodeEvent k p) = ("!", true)))
    /\ (Z.testbit imp 1 = false -> Z.testbit imp 5 = false ->
        Z.testbit exp 1 = false -> Z.testbit exp 5 = false ->
        format_key_label out out_len (KeycodeEvent k p)
        = (C.snprintf out_len out "1", true)
        /\ ((2 <= out_len)%nat ->
            format_key_label out out_len (KeycodeEvent k p) = ("1", true))).
Proof.
  intros out out_len imp exp p k.
  assert (Hs : shifted k = Z.testbit (Z.lor imp exp) 1 || Z.testbit (Z.lor imp exp) 5)
    by apply shifted_bits.
  split; [exact Hs|].
  rewrite !Z.lor_spec in Hs.
  split.
  - intros -> H1.
    rewrite Z.bits_0, H1 in Hs. cbn [orb] in Hs.
    assert (E : format_key_label out out_len (KeycodeEvent k p)
                = (C.snprintf out_len out "!", true))
      by (cbn; fold k; rewrite Hs; reflexivity).
    split; [exact E|].
    intros Hlen. rewrite E, snprintf_fits by (cbn; lia). reflexivity.
  - intros I1 I5 E1 E5.
    rewrite I1, I5, E1, E5 in Hs. cbn [orb] in Hs.
    assert (E : format_key_label out out_len (KeycodeEvent k p)
                = (C.snprintf out_len out "1", true))
      by (cbn; fold k; rewrite Hs; reflexivity).
    split; [exact E|].
    intros Hlen. rewrite E, snprintf_fits by (cbn; lia). reflexivity.
Qed.

(** C3. Consumer-page / keyboard-page asymmetry.  On usage page 0x0C every
    usage id is matched, and every id other than the six mapped ones formats
    "MEDIA" (stored whole in any buffer of six bytes or more); on usage page
    0x07 an id outside the letter range that has no table entry is unmatched
    and the buffer is left alone. *)
Theorem consumer_keyboard_asymmetry :
  forall (out : string) (out_len : nat) (kc imp exp : Z) (p : bool),
    let consumer := KeycodeEvent {| usage_page := 0x0c; keycode := kc;
                                    implicit_modifiers := imp;
                                    explicit_modifiers := exp |} p in
    let keyboard := KeycodeEvent {| usage_page := 0x07; keycode := kc;
                                    implicit_modifiers := imp;
                                    explicit_modifiers := exp |} p in
    snd (format_key_label out out_len consumer) = true
    /\ (~ In kc consumer_table_ids ->
        format_key_label out out_len consumer = (C.snprintf out_len out "MEDIA", true)
        /\ ((6 <= out_len)%nat ->
            format_key_label out out_len consumer = ("MEDIA", true)))
    /\ (~ In kc keyboard_table_ids -> ~ (0x04 <= kc <= 0x1d) ->
        format_key_label out out_len keyboard = (out, false)).
Proof.
  intros out out_len kc imp exp p consumer keyboard.
  split; [reflexivity|]. split.
  - intros Hkc.
    assert (E : format_key_label out out_len consumer
                = (C.snprintf out_len out "MEDIA", true))
      by (cbn; rewrite (consumer_switch_default kc Hkc); reflexivity).
    split; [exact E|].
    intros Hlen. rewrite E, snprintf_fits by (cbn; lia). reflexivity.
  - intros Hkc Hrange. cbn.
    rewrite keyboard_switch_default by exact Hkc.
    destruct (Z.leb_spec 4 kc); destruct (Z.leb_spec kc 29); cbn; try reflexivity.
    exfalso. apply Hrange. lia.
Qed.

Lemma letter_char_offset (kc : Z) :
  0x04 <= kc <= 0x1d ->
  letter_char kc = ascii_of_N (N_of_ascii "A" + Z.to_N (kc - 0x04)).
Proof.
  intros H. unfold letter_char, C.uint8.
  rewrite (Z.mod_small (kc - 4)) by lia.
  rewrite Z.mod_small by lia.
  f_equal. change (N_of_ascii "A") with 65%N. lia.
Qed.

(** C9. Letter range.  On usage page 0x07, every usage id from 0x04 to 0x1D
    inclusive is matched and formats the one letter 'A' + (id - 0x04),
    whatever the modifier bytes are (stored whole in any buffer of two bytes
    or more); 0x04 gives "A" and 0x1D gives "Z". *)
Theorem letter_range :
  forall (out : string) (out_len : nat) (kc imp exp : Z) (p : bool),
    0x04 <= kc <= 0x1d ->
    let ev := KeycodeEvent {| usage_page := 0x07; keycode := kc;
                              implicit_modifiers := imp;
                              explicit_modifiers := exp |} p in
    let letter := String (ascii_of_N (N_of_ascii "A" + Z.to_N (kc - 0x04))) EmptyString in
    format_key_label out out_len ev = (C.snprintf out_len out letter, true)
    /\ ((2 <= out_len)%nat ->
        format_key_label out out_len ev = (letter, true)
        /\ (kc = 0x04 -> format_key_label out out_len ev = ("A", true))
        /\ (kc = 0x1d -> format_key_label out out_len ev = ("Z", true))).
Proof.
  intros out out_len kc imp exp p Hkc ev letter.
  assert (E : format_key_label out out_len ev = (C.snprintf out_len out letter, true)).
  { cbn.
    destruct (Z.leb_spec 4 kc); [|lia]. destruct (Z.leb_spec kc 29); [|lia].
    cbn [andb]. rewrite letter_char_offset by exact Hkc. reflexivity. }
  split; [exact E|].
  intros Hlen.
  assert (E' : format_key_label out out_len ev = (letter, true))
    by (rewrite E, snprintf_fits by (cbn; lia); reflexivity).
  split; [exact E'|].
  split; intros Hk; rewrite E'; unfold letter; rewrite Hk; reflexivity.
Qed.

(** The 26 ids of the letter range, decoded in order. *)
Example letter_range_alphabet :
  map (fun kc => format_key_label EmptyString 2
                   (KeycodeEvent {| usage_page := 0x07; keycode := kc;
                                    implicit_modifiers := 0;
                                    explicit_modifiers := 0 |} true))
      (map Z.of_nat (seq 4 26))
  = map (fun l => (l, true))
      [ "A"; "B"; "C"; "D"; "E"; "F"; "G"; "H"; "I"; "J"; "K"; "L"; "M";
        "N"; "O"; "P"; "Q"; "R"; "S"; "T"; "U"; "V"; "W"; "X"; "Y"; "Z" ].
Proof. reflexivity. Qed.

Lemma label_for_position_out_of_range (position : Z) :
  ARRAY_SIZE_default_key_labels <= position -> label_for_position position = None.
Proof.
  intros H. unfold label_for_position.
  destruct (Z.ltb_spec position ARRAY_SIZE_default_key_labels); [lia|reflexivity].
Qed.

Lemma label_for_position_in_range (position : Z) :
  0 <= position < ARRAY_SIZE_default_key_labels ->
  exists l, label_for_position position = Some l
            /\ nth_error default_key_labels (Z.to_nat position) = Some l.
Proof.
  intros H. unfold label_for_position.
  destruct (Z.ltb_spec position ARRAY_SIZE_default_key_labels); [|lia].
  destruct (nth_error default_key_labels (Z.to_nat position)) as [l|] eqn:E.
  - exists l. split; reflexivity.
  - apply nth_error_None in E. unfold ARRAY_SIZE_default_key_labels in H. lia.
Qed.

(** ** The broadcast loop *)

Lemma for_each_widget_map
    (body : zmk_widget_status -> zmk_widget_status * list draw_call)
    (ws : list zmk_widget_status) :
  for_each_widget body ws
  = (map (fun w => fst (body w)) ws, flat_map (fun w => snd (body w)) ws).
Proof.
  induction ws as [|w rest IH]; [reflexivity|].
  cbn [for_each_widget map flat_map].
  destruct (body w) as [w' d]. rewrite IH. reflexivity.
Qed.

Lemma keypress_accepted (st : keypress_status_state) (now : Z) (w : world) :
  pressed st = true ->
  debounced now w = false ->
  keypress_status_update_cb st now w
  = {| widgets := map (keypress_applied st) (widgets w);
       last_keypress_render_ms := now;
       has_last_keypress_render := true;
       display := display w
                  ++ map (fun widget => draw_top (obj widget) (state widget))
                       (map (keypress_applied st) (widgets w)) |}.
Proof.
  intros Hp Hd. unfold keypress_status_update_cb.
  rewrite Hp, Hd. cbn [negb].
  rewrite for_each_widget_map. f_equal. f_equal.
  induction (widgets w) as [|x rest IH]; [reflexivity|].
  cbn [flat_map map]. rewrite IH. reflexivity.
Qed.

Lemma keypress_dropped (st : keypress_status_state) (now : Z) (w : world) :
  pressed st = false \/ debounced now w = true ->
  keypress_status_update_cb st now w = w.
Proof.
  intros [H|H]; unfold keypress_status_update_cb.
  - rewrite H. reflexivity.
  - rewrite H. destruct (pressed st); reflexivity.
Qed.

Lemma keypress_applied_fields (st : keypress_status_state) (widget : zmk_widget_status) :
  obj (keypress_applied st widget) = obj widget
  /\ last_key (state (keypress_applied st widget)) = key_label (last_key (state widget)) st
  /\ show_last_key (state (keypress_applied st widget)) = true.
Proof. repeat split. Qed.

(** ** The keypress reducer *)

(** C5. Release events are frame-preserving: a key event with
    [pressed = false] leaves the whole world as it was, so every widget
    snapshot (with [last_key] and [show_last_key]), the debounce timestamp
    and flag are unchanged and nothing is redrawn. *)
Theorem release_preserves_world :
  forall (st : keypress_status_state) (now : Z) (w : world),
    pressed st = false ->
    keypress_status_update_cb st now w = w
    /\ Forall2 (fun before after =>
                  state after = state before
                  /\ last_key (state after) = last_key (state before)
                  /\ show_last_key (state after) = show_last_key (state before))
         (widgets w) (widgets (keypress_status_update_cb st now w))
    /\ last_keypress_render_ms (keypress_status_update_cb st now w)
       = last_keypress_render_ms w
    /\ has_last_keypress_render (keypress_status_update_cb st now w)
       = has_last_keypress_render w
    /\ display (keypress_status_update_cb st now w) = display w.
Proof.
  intros st now w Hp.
  rewrite keypress_dropped by (left; exact Hp).
  repeat split.
  induction (widgets w) as [|x rest IH]; constructor; auto.
Qed.

Lemma step_keeps_flag (w : world) (i : input) :
  is_press i = false ->
  has_last_keypress_render (step w i) = has_last_keypress_render w.
Proof.
  intros Hi. destruct i as [widget | st | st | st | st now]; cbn [step].
  - reflexivity.
  - unfold battery_status_update_cb. destruct (for_each_widget _ _). reflexivity.
  - unfold output_status_update_cb. destruct (for_each_widget _ _). reflexivity.
  - unfold layer_status_update_cb. destruct (for_each_widget _ _). reflexivity.
  - cbn in Hi. rewrite keypress_dropped by (left; exact Hi). reflexivity.
Qed.

Lemma no_press_no_render (history : list input) (w : world) :
  Forall (fun i => is_press i = false) history ->
  has_last_keypress_render (run w history) = has_last_keypress_render w.
Proof.
  unfold run. revert w.
  induction history as [|i rest IH]; intros w H; [reflexivity|].
  inversion H as [|? ? Hi Hrest]; subst.
  cbn [fold_left]. rewrite IH by exact Hrest.
  apply step_keeps_flag, Hi.
Qed.

Lemma step_keeps_timestamp (w : world) (i : input) :
  is_press i = false ->
  last_keypress_render_ms (step w i) = last_keypress_render_ms w.
Proof.
  intros Hi. destruct i as [widget | st | st | st | st now]; cbn [step].
  - reflexivity.
  - unfold battery_status_update_cb. destruct (for_each_widget _ _). reflexivity.
  - unfold output_status_update_cb. destruct (for_each_widget _ _). reflexivity.
  - unfold layer_status_update_cb. destruct (for_each_widget _ _). reflexivity.
  - cbn in Hi. rewrite keypress_dropped by (left; exact Hi). reflexivity.
Qed.

Lemma no_press_same_timestamp (history : list input) (w : world) :
  Forall (fun i => is_press i = false) history ->
  last_keypress_render_ms (run w history) = last_keypress_render_ms w.
Proof.
  unfold run. revert w.
  induction history as [|i rest IH]; intros w H; [reflexivity|].
  inversion H as [|? ? Hi Hrest]; subst.
  cbn [fold_left]. rewrite IH by exact Hrest.
  apply step_keeps_timestamp, Hi.
Qed.

Lemma press_without_render_accepted (st : keypress_status_state) (now : Z) (w : world) :
  pressed st = true ->
  has_last_keypress_render w = false ->
  keypress_status_update_cb st now w
  = {| widgets := map (keypress_applied st) (widgets w);
       last_keypress_render_ms := now;
       has_last_keypress_render := true;
       display := display w
                  ++ map (fun widget => draw_top (obj widget) (state widget))
                       (map (keypress_applied st) (widgets w)) |}.
Proof.
  intros Hp Hflag. apply keypress_accepted; [exact Hp|].
  unfold debounced. rewrite Hflag. reflexivity.
Qed.

(** C10. The first press after initialisation is never debounced.  Start from
    the statically initialised world and handle any calls none of which is a
    press (registrations, other reducers, releases): the next press, at
    whatever uptime (below 100 ms included, the zeroed timestamp
    notwithstanding), rewrites every widget's [last_key], sets
    [show_last_key], records the timestamp, sets the flag and redraws each
    top zone. *)
Theorem first_press_accepted :
  forall (history : list input) (st : keypress_status_state) (now : Z),
    Forall (fun i => is_press i = false) history ->
    pressed st = true ->
    let w := run initial_world history in
    let w' := keypress_status_update_cb st now w in
    has_last_keypress_render w = false
    /\ Forall2 (fun before after =>
                  obj after = obj before
                  /\ last_key (state after) = key_label (last_key (state before)) st
                  /\ show_last_key (state after) = true)
         (widgets w) (widgets w')
    /\ last_keypress_render_ms w' = now
    /\ has_last_keypress_render w' = true
    /\ display w'
       = display w ++ map (fun widget => draw_top (obj widget) (state widget)) (widgets w').
Proof.
  intros history st now Hhist Hp w w'.
  assert (Hflag : has_last_keypress_render w = false)
    by (unfold w; rewrite no_press_no_render by exact Hhist; reflexivity).
  split; [exact Hflag|].
  unfold w'. rewrite (press_without_render_accepted st now w Hp Hflag). cbn.
  repeat split.
  induction (widgets w) as [|x rest IH]; constructor; auto using keypress_applied_fields.
Qed.

(** C1. Keypress debounce.  Let a press be accepted at uptime [t1], so that it
    is the press that last triggered a redraw, let any calls other than
    presses follow (the key's release, other reducers), and let a second
    press be processed at uptime [t2]; the elapsed time is the [uint32_t]
    difference of the two readings.  If it is below 100 ms the second press
    changes nothing: no widget's [last_key] or [show_last_key], not the
    timestamp, and no redraw.  If it is 100 ms or more, the second press,
    like the first, writes its own label into every widget's [last_key],
    sets [show_last_key], records its uptime and redraws every top zone. *)
Theorem keypress_debounce :
  forall (st1 st2 : keypress_status_state) (t1 t2 : Z) (w : world)
         (between : list input),
    pressed st1 = true ->
    pressed st2 = true ->
    debounced t1 w = false ->
    Forall (fun i => is_press i = false) between ->
    let w1 := keypress_status_update_cb st1 t1 w in
    let wm := run w1 between in
    let w2 := keypress_status_update_cb st2 t2 wm in
    (widgets w1 = map (keypress_applied st1) (widgets w)
     /\ Forall2 (fun before after =>
                   obj after = obj before
                   /\ last_key (state after) = key_label (last_key (state before)) st1
                   /\ show_last_key (state after) = true)
          (widgets w) (widgets w1)
     /\ last_keypress_render_ms w1 = t1
     /\ has_last_keypress_render w1 = true
     /\ display w1
        = display w ++ map (fun widget => draw_top (obj widget) (state widget)) (widgets w1))
    /\ (C.uint32 (t2 - t1) < 100 ->
        w2 = wm
        /\ map keypress_fields (widgets w2) = map keypress_fields (widgets wm)
        /\ last_keypress_render_ms w2 = t1
        /\ display w2 = display wm)
    /\ (100 <= C.uint32 (t2 - t1) ->
        widgets w2 = map (keypress_applied st2) (widgets wm)
        /\ Forall2 (fun before after =>
                      obj after = obj before
                      /\ last_key (state after) = key_label (last_key (state before)) st2
                      /\ show_last_key (state after) = true)
             (widgets wm) (widgets w2)
        /\ last_keypress_render_ms w2 = t2
        /\ has_last_keypress_render w2 = true
        /\ display w2
           = display wm ++ map (fun widget => draw_top (obj widget) (state widget)) (widgets w2)).
Proof.
  intros st1 st2 t1 t2 w between Hp1 Hp2 Hd1 Hbetween w1 wm w2.
  assert (Happlied : forall st ws,
             Forall2 (fun before after =>
                        obj after = obj before
                        /\ last_key (state after) = key_label (last_key (state before)) st
                        /\ show_last_key (state after) = true)
               ws (map (keypress_applied st) ws)).
  { intros st ws. induction ws as [|x rest IH]; constructor;
      auto using keypress_applied_fields. }
  assert (E1 : w1 = _) by exact (keypress_accepted st1 t1 w Hp1 Hd1).
  split.
  { rewrite E1. cbn [widgets last_keypress_render_ms has_last_keypress_render display].
    repeat split. apply Happlied. }
  assert (Hlast : last_keypress_render_ms wm = t1)
    by (unfold wm; rewrite no_press_same_timestamp by exact Hbetween;
        rewrite E1; reflexivity).
  assert (Hflag : has_last_keypress_render wm = true)
    by (unfold wm; rewrite no_press_no_render by exact Hbetween;
        rewrite E1; reflexivity).
  split.
  - intros Hlt.
    assert (E2 : w2 = wm).
    { unfold w2. apply keypress_dropped. right.
      unfold debounced, KEYPRESS_RENDER_INTERVAL_MS. rewrite Hflag, Hlast.
      destruct (Z.ltb_spec (C.uint32 (t2 - t1)) 100); [reflexivity|lia]. }
    rewrite E2. repeat split. exact Hlast.
  - intros Hge.
    assert (Hd2 : debounced t2 wm = false).
    { unfold debounced, KEYPRESS_RENDER_INTERVAL_MS. rewrite Hflag, Hlast.
      destruct (Z.ltb_spec (C.uint32 (t2 - t1)) 100); [lia|reflexivity]. }
    unfold w2. rewrite (keypress_accepted st2 t2 wm Hp2 Hd2).
    cbn [widgets last_keypress_render_ms has_last_keypress_render display].
    repeat split. apply Happlied.
Qed.

(** The [uint32_t] difference is the elapsed time while the counter has not
    wrapped, and stays the elapsed time across one wrap of the counter. *)
Lemma uint32_elapsed (t1 d : Z) :
  0 <= d < C.UINT32_MOD -> C.uint32 (C.uint32 (t1 + d) - t1) = d.
Proof.
  intros H. unfold C.uint32.
  rewrite Zminus_mod_idemp_l.
  replace (t1 + d - t1) with d by lia.
  apply Z.mod_small. exact H.
Qed.

(** Up to three digits the placeholder needs no more than five bytes. *)
Lemma placeholder_fits_five (position : Z) :
  0 <= position < 1000 ->
  (String.length ("K" ++ C.fmt_uint position) < 5)%nat.
Proof.
  intros H.
  assert (Hall : forallb (fun i => (String.length ("K" ++ C.fmt_uint (Z.of_nat i)) <? 5)%nat)
                   (seq 0 1000) = true) by (vm_compute; reflexivity).
  rewrite forallb_forall in Hall.
  specialize (Hall (Z.to_nat position)).
  rewrite Z2Nat.id in Hall by lia.
  apply Nat.ltb_lt, Hall, in_seq. lia.
Qed.

(** C4. Positional fallback.  Position 0 decodes to "TAB"; the table has 46
    entries, and for every position from 46 up the bounds check makes the
    lookup return no label, the decoder report unmatched without touching the
    buffer, and [set_keypress_status] format "K<position>" into [last_key]
    (whole whenever it fits the buffer, as it does for every position below
    1000 once the buffer has five bytes). *)
Theorem positional_fallback :
  forall (out : string) (out_len : nat) (position : Z) (p : bool)
         (widget : zmk_widget_status),
    (4 <= out_len)%nat ->
    ARRAY_SIZE_default_key_labels <= position < C.UINT32_MOD ->
    let K := ("K" ++ C.fmt_uint position)%string in
    let widget' := fst (set_keypress_status widget (PositionEvent position p)) in
    ARRAY_SIZE_default_key_labels = 46
    /\ format_key_label out out_len (PositionEvent 0 p) = ("TAB", true)
    /\ label_for_position position = None
    /\ format_key_label out out_len (PositionEvent position p) = (out, false)
    /\ last_key (state widget') = C.snprintf LAST_KEY_SIZE (last_key (state widget)) K
    /\ ((String.length K < LAST_KEY_SIZE)%nat -> last_key (state widget') = K)
    /\ (position < 1000 -> (5 <= LAST_KEY_SIZE)%nat -> last_key (state widget') = K).
Proof.
  intros out out_len position p widget Hlen Hpos K widget'.
  assert (Hnone : label_for_position position = None)
    by (apply label_for_position_out_of_range; lia).
  assert (Hlast : last_key (state widget')
                  = C.snprintf LAST_KEY_SIZE (last_key (state widget)) K).
  { unfold widget', set_keypress_status, key_label. cbn.
    rewrite Hnone. cbn. unfold C.uint32.
    change ARRAY_SIZE_default_key_labels with 46 in Hpos.
    rewrite Z.mod_small by lia.
    reflexivity. }
  split; [reflexivity|].
  split; [cbn; rewrite snprintf_fits by (cbn; lia); reflexivity|].
  split; [exact Hnone|].
  split; [cbn; rewrite Hnone; reflexivity|].
  split; [exact Hlast|].
  split.
  - intros Hfit. rewrite Hlast. apply snprintf_fits. exact Hfit.
  - intros Hsmall Hsize. rewrite Hlast. apply snprintf_fits.
    change ARRAY_SIZE_default_key_labels with 46 in Hpos.
    pose proof (placeholder_fits_five position) as Hfive.
    fold K in Hfive. lia.
Qed.

(** ** Zone contents *)

Lemma layer_text_fits (s : status_state) :
  0 <= layer_index s <= 255 ->
  (String.length ("LAYER " ++ C.fmt_int (layer_index s)) < 10)%nat.
Proof.
  intros H.
  assert (Hall : forallb (fun i => (String.length ("LAYER " ++ C.fmt_int (Z.of_nat i)) <? 10)%nat)
                   (seq 0 256) = true) by (vm_compute; reflexivity).
  rewrite forallb_forall in Hall.
  specialize (Hall (Z.to_nat (layer_index s))).
  rewrite Z2Nat.id in Hall by lia.
  apply Nat.ltb_lt, Hall, in_seq. lia.
Qed.

(** C6. Layer label fallback.  With a null or empty [layer_label] the bottom
    zone shows "LAYER <index>" ("LAYER 3" for index 3), a text that fits the
    10-byte local buffer for every 8-bit index; a non-empty [layer_label] is
    shown as it is, whatever the index. *)
Theorem layer_label_fallback :
  forall (widget : nat) (s : status_state),
    (layer_label s = None \/ layer_label s = Some EmptyString ->
       drawn_texts (draw_bottom widget s)
       = [ ("LAYER " ++ C.fmt_int (layer_index s))%string ]
       /\ (layer_index s = 3 -> drawn_texts (draw_bottom widget s) = [ "LAYER 3" ])
       /\ (0 <= layer_index s <= 255 ->
           C.sprintf_local 10 ("LAYER " ++ C.fmt_int (layer_index s))
           = Some ("LAYER " ++ C.fmt_int (layer_index s))%string))
    /\ (forall l : string,
          layer_label s = Some l -> l <> EmptyString ->
          drawn_texts (draw_bottom widget s) = [ l ]).
Proof.
  intros widget s. split.
  - intros Hnull.
    assert (E : drawn_texts (draw_bottom widget s)
                = [ ("LAYER " ++ C.fmt_int (layer_index s))%string ]).
    { unfold drawn_texts, draw_bottom, layer_text. cbn.
      destruct Hnull as [-> | ->]; reflexivity. }
    split; [exact E|]. split.
    + intros H3. rewrite E, H3. reflexivity.
    + intros Hrange. unfold C.sprintf_local.
      pose proof (layer_text_fits s Hrange) as Hfit.
      apply Nat.ltb_lt in Hfit. rewrite Hfit. reflexivity.
  - intros l Hl Hne.
    unfold drawn_texts, draw_bottom, layer_text. cbn. rewrite Hl.
    destruct l as [|c l]; [contradiction|reflexivity].
Qed.

(** C7. Profile selection exclusivity.  For an [active_profile_index] from 0
    to 4, the loop of [draw_middle] marks as selected the slot whose loop
    index equals it and no other: one of the five slot states is true, and
    the redraw carries one selection mark, that of this slot. *)
Theorem profile_selection_exclusive :
  forall (widget : nat) (s : status_state),
    0 <= active_profile_index s <= 4 ->
    (forall i : nat, (i < 5)%nat ->
       (slot_selected s i = true <-> Z.of_nat i = active_profile_index s))
    /\ List.length (slot_states s) = 5%nat
    /\ count_occ bool_dec (slot_states s) true = 1%nat
    /\ count_occ bool_dec (slot_states s) false = 4%nat
    /\ nth (Z.to_nat (active_profile_index s)) (slot_states s) false = true
    /\ selection_marks (draw_middle widget s)
       = [ filled_arc (Z.to_nat (active_profile_index s)) ].
Proof.
  intros widget s H.
  split.
  { intros i _. unfold slot_selected. apply Z.eqb_eq. }
  unfold slot_states, selection_marks, draw_middle, draw_middle_slot, slot_selected.
  assert (Hc : active_profile_index s = 0 \/ active_profile_index s = 1
               \/ active_profile_index s = 2 \/ active_profile_index s = 3
               \/ active_profile_index s = 4) by lia.
  destruct Hc as [-> | [-> | [-> | [-> | ->]]]]; cbn; repeat split.
Qed.

(** ** Broadcast *)




(** ** Further properties of the decoder *)

Lemma substring_length_le (s : string) (n : nat) :
  (String.length (substring 0 n s) <= n)%nat.
Proof.
  revert s; induction n as [|n IH]; intros s.
  - destruct s; cbn; lia.
  - destruct s as [|c s]; cbn; [lia|]. specialize (IH s). lia.
Qed.

Lemma snprintf_within (n : nat) (old s : string) :
  (0 < n)%nat -> (String.length (C.snprintf n old s) < n)%nat.
Proof.
  intros H. destruct n as [|n]; [lia|].
  cbn. pose proof (substring_length_le s n). lia.
Qed.

(** X1. [format_key_label] never leaves more in the buffer than it can hold:
    if the buffer's contents fitted before the call (terminator included),
    they fit after it, whatever the event. *)
Theorem format_key_label_within_buffer :
  forall (out : string) (out_len : nat) (st : keypress_status_state),
    (String.length out < out_len)%nat ->
    (String.length (fst (format_key_label out out_len st)) < out_len)%nat.
Proof.
  intros out out_len st H.
  assert (Hpos : (0 < out_len)%nat) by lia.
  destruct st as [k p | position p]; cbn.
  - destruct (usage_page k =? 7).
    + destruct ((4 <=? keycode k) && (keycode k <=? 29)); cbn;
        [apply snprintf_within, Hpos|].
      destruct (keyboard_switch (keycode k) (shifted k)); cbn;
        [apply snprintf_within, Hpos | exact H].
    + destruct (usage_page k =? 12); cbn; [apply snprintf_within, Hpos | exact H].
  - destruct (label_for_position position); cbn;
      [apply snprintf_within, Hpos | exact H].
Qed.

Lemma keyboard_switch_length (kc : Z) (sh : bool) (s : string) :
  keyboard_switch kc sh = Some s -> (1 <= String.length s <= 5)%nat.
Proof.
  intros H.
  destruct (in_dec Z.eq_dec kc keyboard_table_ids) as [Hin|Hout].
  - cbn in Hin.
    repeat (destruct Hin as [<- | Hin];
            [destruct sh; cbn in H; injection H as <-; cbn; lia|]).
    contradiction.
  - rewrite keyboard_switch_default in H by exact Hout. discriminate.
Qed.

Lemma consumer_switch_length (kc : Z) :
  (1 <= String.length (consumer_switch kc) <= 5)%nat.
Proof.
  destruct (in_dec Z.eq_dec kc consumer_table_ids) as [Hin|Hout].
  - cbn in Hin.
    repeat (destruct Hin as [<- | Hin]; [cbn; lia|]).
    contradiction.
  - rewrite consumer_switch_default by exact Hout. cbn. lia.
Qed.

Lemma default_key_labels_length (position : Z) (l : string) :
  label_for_position position = Some l -> (1 <= String.length l <= 5)%nat.
Proof.
  unfold label_for_position.
  destruct (position <? ARRAY_SIZE_default_key_labels); [|discriminate].
  intros H. apply nth_error_In in H.
  assert (Hall : Forall (fun l => (1 <= String.length l <= 5)%nat) default_key_labels)
    by (repeat constructor).
  rewrite Forall_forall in Hall. apply Hall, H.
Qed.

(** The text [format_key_label] formats, when it formats one. *)
Lemma format_key_label_text (out : string) (out_len : nat) (st : keypress_status_state) :
  (exists s, (1 <= String.length s <= 5)%nat
             /\ forall n, format_key_label out n st = (C.snprintf n out s, true))
  \/ (forall n, format_key_label out n st = (out, false)).
Proof.
  destruct st as [k p | position p]; cbn.
  - destruct (usage_page k =? 7).
    + destruct ((4 <=? keycode k) && (keycode k <=? 29)).
      * left. eexists. split; [|intros n; reflexivity]. cbn. lia.
      * destruct (keyboard_switch (keycode k) (shifted k)) as [s|] eqn:E.
        -- left. exists s. split; [|intros n; reflexivity].
           apply (keyboard_switch_length _ _ _ E).
        -- right. intros n. reflexivity.
    + destruct (usage_page k =? 12).
      * left. eexists. split; [|intros n; reflexivity]. apply consumer_switch_length.
      * right. intros n. reflexivity.
  - destruct (label_for_position position) as [l|] eqn:E.
    + left. exists l. split; [|intros n; reflexivity].
      apply (default_key_labels_length _ _ E).
    + right. intros n. reflexivity.
Qed.

(** X2. No label of either decoder is ever cut short in a buffer of six
    bytes: a matched label has between one and five characters, and with six
    bytes or more the result of [format_key_label] no longer depends on the
    size of the buffer. *)
Theorem labels_fit_six_bytes :
  forall (out : string) (out_len : nat) (st : keypress_status_state),
    (6 <= out_len)%nat ->
    format_key_label out out_len st = format_key_label out 6 st
    /\ (snd (format_key_label out out_len st) = true ->
        (1 <= String.length (fst (format_key_label out out_len st)) <= 5)%nat).
Proof.
  intros out out_len st Hlen.
  destruct (format_key_label_text out out_len st) as [(s & Hs & E) | E].
  - rewrite (E out_len), (E 6%nat).
    rewrite !snprintf_fits by lia. split; [reflexivity|]. intros _. exact Hs.
  - rewrite (E out_len), (E 6%nat). split; [reflexivity|]. discriminate.
Qed.

(** X3. When the rich decoder matches: on page 0x0C always, on page 0x07 for
    the letter range and the ids with a [case], and on no other page. *)
Theorem keycode_matched_iff :
  forall (out : string) (out_len : nat) (k : keycode_fields) (p : bool),
    snd (format_key_label out out_len (KeycodeEvent k p)) = true
    <-> (usage_page k = 0x0c
         \/ (usage_page k = 0x07
             /\ (0x04 <= keycode k <= 0x1d \/ In (keycode k) keyboard_table_ids))).
Proof.
  intros out out_len k p. cbn.
  destruct (Z.eqb_spec (usage_page k) 7) as [E7|N7].
  - destruct (Z.leb_spec 4 (keycode k)); destruct (Z.leb_spec (keycode k) 29);
      cbn [andb]; try (split; [intros _; right; split; [exact E7|left; lia] | reflexivity]).
    all: destruct (in_dec Z.eq_dec (keycode k) keyboard_table_ids) as [Hin|Hout].
    all: try (rewrite keyboard_switch_default by exact Hout; cbn;
              split; [discriminate | intros [Hc | [_ [Hr | Hin]]]; [lia | lia | contradiction]]).
    all: destruct (keyboard_switch (keycode k) (shifted k)) eqn:E;
      [cbn; split; [intros _; right; split; [exact E7 | right; exact Hin] | reflexivity]
      | exfalso; exact (keyboard_switch_entry _ _ Hin E)].
  - destruct (Z.eqb_spec (usage_page k) 12) as [Ec|Nc]; cbn.
    + split; [intros _; left; exact Ec | reflexivity].
    + split; [discriminate | intros [Hc | [H7 _]]; contradiction].
Qed.

Lemma keyboard_switch_shift_insensitive (kc : Z) :
  ~ In kc shift_sensitive_ids ->
  keyboard_switch kc true = keyboard_switch kc false.
Proof.
  intros Hns.
  destruct (in_dec Z.eq_dec kc keyboard_table_ids) as [Hin|Hout].
  - cbn in Hin.
    repeat (destruct Hin as [<- | Hin];
            [first [reflexivity | exfalso; apply Hns; cbn; tauto]|]).
    contradiction.
  - rewrite !keyboard_switch_default by exact Hout. reflexivity.
Qed.

(** X4. What a label of the rich decoder depends on: the usage page, the
    usage id and, for the 21 ids with two texts on page 0x07 only, whether a
    shift bit is set.  Two events that agree on these decode alike, whatever
    their other modifier bits and their [pressed] flags. *)
Theorem label_depends_on_shift_only :
  forall (out : string) (out_len : nat) (k k' : keycode_fields) (p p' : bool),
    usage_page k = usage_page k' ->
    keycode k = keycode k' ->
    (shifted k = shifted k'
     \/ ~ In (keycode k) shift_sensitive_ids
     \/ usage_page k <> 0x07) ->
    format_key_label out out_len (KeycodeEvent k p)
    = format_key_label out out_len (KeycodeEvent k' p').
Proof.
  intros out out_len k k' p p' Hpage Hkc Hsh. cbn.
  rewrite <- Hpage, <- Hkc.
  destruct (Z.eqb_spec (usage_page k) 7) as [E7|N7]; [|reflexivity].
  destruct ((4 <=? keycode k) && (keycode k <=? 29)); [reflexivity|].
  destruct Hsh as [Hsh | [Hns | Hn7]].
  - rewrite Hsh. reflexivity.
  - pose proof (keyboard_switch_shift_insensitive _ Hns) as E.
    destruct (shifted k), (shifted k'); rewrite ?E; reflexivity.
  - contradiction.
Qed.

(** X5. The placeholder of the rich build.  When the decoder does not match
    a keycode event (a page other than 0x07 and 0x0C, or an id of page 0x07
    outside the letter range and without a [case]), [set_keypress_status]
    shows "KEY" and still turns the key label on. *)
Theorem unmatched_keycode_shows_KEY :
  forall (widget : zmk_widget_status) (k : keycode_fields) (p : bool),
    (4 <= LAST_KEY_SIZE)%nat ->
    ((usage_page k <> 0x07 /\ usage_page k <> 0x0c)
     \/ (usage_page k = 0x07 /\ ~ (0x04 <= keycode k <= 0x1d)
         /\ ~ In (keycode k) keyboard_table_ids)) ->
    let widget' := fst (set_keypress_status widget (KeycodeEvent k p)) in
    last_key (state widget') = "KEY"
    /\ show_last_key (state widget') = true
    /\ snd (set_keypress_status widget (KeycodeEvent k p))
       = [ draw_top (obj widget) (state widget') ].
Proof.
  intros widget k p Hsize Hun widget'.
  assert (E : format_key_label (last_key (state widget)) LAST_KEY_SIZE (KeycodeEvent k p)
              = (last_key (state widget), false)).
  { cbn. destruct Hun as [[N7 Nc] | (E7 & Hr & Hout)].
    - destruct (Z.eqb_spec (usage_page k) 7); [contradiction|].
      destruct (Z.eqb_spec (usage_page k) 12); [contradiction|]. reflexivity.
    - rewrite E7. cbn.
      rewrite keyboard_switch_default by exact Hout.
      destruct (Z.leb_spec 4 (keycode k)); destruct (Z.leb_spec (keycode k) 29);
        cbn; try reflexivity.
      exfalso. apply Hr. lia. }
  repeat split.
  unfold widget', set_keypress_status, key_label. cbn [fst state last_key].
  rewrite E. cbn [placeholder]. apply snprintf_fits. cbn. lia.
Qed.

(** X6. The positional build inside the table.  A position below 46 is
    matched and, in a buffer of six bytes or more, [set_keypress_status]
    shows the table's label for it whole; the placeholder is not used. *)
Theorem position_in_table_shows_label :
  forall (widget : zmk_widget_status) (position : Z) (p : bool),
    (6 <= LAST_KEY_SIZE)%nat ->
    0 <= position < ARRAY_SIZE_default_key_labels ->
    let widget' := fst (set_keypress_status widget (PositionEvent position p)) in
    snd (format_key_label (last_key (state widget)) LAST_KEY_SIZE
           (PositionEvent position p)) = true
    /\ nth_error default_key_labels (Z.to_nat position) = Some (last_key (state widget'))
    /\ show_last_key (state widget') = true.
Proof.
  intros widget position p Hsize Hpos widget'.
  destruct (label_for_position_in_range position Hpos) as (l & Hl & Hnth).
  pose proof (default_key_labels_length _ _ Hl) as Hlen.
  assert (E : format_key_label (last_key (state widget)) LAST_KEY_SIZE
                (PositionEvent position p) = (l, true)).
  { cbn. rewrite Hl. rewrite snprintf_fits by lia. reflexivity. }
  split; [rewrite E; reflexivity|].
  split; [|reflexivity].
  unfold widget', set_keypress_status, key_label. cbn [fst state last_key].
  rewrite E. exact Hnth.
Qed.

(** ** Further properties of the reducers *)

Lemma battery_widgets (st : battery_status_state) (w : world) :
  widgets (battery_status_update_cb st w)
  = map (fun widget => fst (set_battery_status widget st)) (widgets w).
Proof.
  unfold battery_status_update_cb. rewrite for_each_widget_map. reflexivity.
Qed.

Lemma output_widgets (st : output_status_state) (w : world) :
  widgets (output_status_update_cb st w)
  = map (fun widget => fst (set_output_status widget st)) (widgets w).
Proof.
  unfold output_status_update_cb. rewrite for_each_widget_map. reflexivity.
Qed.

Lemma layer_widgets (st : layer_status_state) (w : world) :
  widgets (layer_status_update_cb st w)
  = map (fun widget => fst (set_layer_status widget st)) (widgets w).
Proof.
  unfold layer_status_update_cb. rewrite for_each_widget_map. reflexivity.
Qed.

(** A key event either leaves the registry alone or applies itself to each
    widget. *)
Lemma keypress_widgets (st : keypress_status_state) (now : Z) (w : world) :
  widgets (keypress_status_update_cb st now w) = widgets w
  \/ widgets (keypress_status_update_cb st now w)
     = map (keypress_applied st) (widgets w).
Proof.
  destruct (pressed st) eqn:Hp.
  - destruct (debounced now w) eqn:Hd.
    + left. rewrite keypress_dropped by (right; exact Hd). reflexivity.
    + right. rewrite (keypress_accepted st now w Hp Hd). reflexivity.
  - left. rewrite keypress_dropped by (left; exact Hp). reflexivity.
Qed.

Lemma key_label_within (old : string) (st : keypress_status_state) :
  (String.length old < LAST_KEY_SIZE)%nat ->
  (String.length (key_label old st) < LAST_KEY_SIZE)%nat.
Proof.
  intros H. assert (Hpos : (0 < LAST_KEY_SIZE)%nat) by lia.
  unfold key_label.
  destruct (format_key_label_text old LAST_KEY_SIZE st) as [(s & _ & E) | E];
    rewrite (E LAST_KEY_SIZE); apply snprintf_within, Hpos.
Qed.

Lemma registered_cons (i : input) (rest : list input) :
  registered (i :: rest) = registered [ i ] ++ registered rest.
Proof. unfold registered. cbn [flat_map]. rewrite app_nil_r. reflexivity. Qed.

Lemma step_widgets_forall (P : zmk_widget_status -> Prop) (w : world) (i : input) :
  (forall widget st, P widget -> P (fst (set_battery_status widget st))) ->
  (forall widget st, P widget -> P (fst (set_output_status widget st))) ->
  (forall widget st, P widget -> P (fst (set_layer_status widget st))) ->
  (forall widget st, P widget -> P (keypress_applied st widget)) ->
  Forall P (widgets w) ->
  Forall P (registered [ i ]) ->
  Forall P (widgets (step w i)).
Proof.
  intros Hb Ho Hl Hk Hw Hi.
  destruct i as [widget | st | st | st | st now]; cbn [step].
  - cbn. apply Forall_app. split; [exact Hw | exact Hi].
  - rewrite battery_widgets. apply Forall_map. revert Hw. apply Forall_impl.
    intros a. apply Hb.
  - rewrite output_widgets. apply Forall_map. revert Hw. apply Forall_impl.
    intros a. apply Ho.
  - rewrite layer_widgets. apply Forall_map. revert Hw. apply Forall_impl.
    intros a. apply Hl.
  - destruct (keypress_widgets st now w) as [E|E]; rewrite E; [exact Hw|].
    apply Forall_map. revert Hw. apply Forall_impl. intros a. apply Hk.
Qed.

(** X7. The last-key buffer is never overrun.  If the widgets of the
    registry, and those registered later, hold a [last_key] that fits its
    buffer, then after any sequence of registrations and reducer calls every
    widget's [last_key] still fits. *)
Theorem last_key_stays_within_capacity :
  forall (history : list input) (w : world),
    Forall (fun widget => (String.length (last_key (state widget)) < LAST_KEY_SIZE)%nat)
      (widgets w) ->
    Forall (fun widget => (String.length (last_key (state widget)) < LAST_KEY_SIZE)%nat)
      (registered history) ->
    Forall (fun widget => (String.length (last_key (state widget)) < LAST_KEY_SIZE)%nat)
      (widgets (run w history)).
Proof.
  unfold run.
  induction history as [|i rest IH]; intros w Hw Hreg; [exact Hw|].
  cbn [fold_left]. apply IH.
  - apply step_widgets_forall; try (intros widget st H; exact H); try exact Hw.
    + intros widget st H. cbn. apply key_label_within, H.
    + rewrite registered_cons in Hreg.
      apply Forall_app in Hreg. apply Hreg.
  - rewrite registered_cons in Hreg.
    apply Forall_app in Hreg. apply Hreg.
Qed.

Lemma step_objs (w : world) (i : input) :
  map obj (widgets (step w i)) = map obj (widgets w) ++ map obj (registered [ i ]).
Proof.
  destruct i as [widget | st | st | st | st now]; cbn [step registered flat_map app map].
  - cbn. rewrite map_app. reflexivity.
  - rewrite battery_widgets, map_map, app_nil_r. reflexivity.
  - rewrite output_widgets, map_map, app_nil_r. reflexivity.
  - rewrite layer_widgets, map_map, app_nil_r. reflexivity.
  - rewrite app_nil_r.
    destruct (keypress_widgets st now w) as [E|E]; rewrite E; [reflexivity|].
    rewrite map_map. reflexivity.
Qed.

Lemma run_objs (history : list input) (w : world) :
  map obj (widgets (run w history))
  = map obj (widgets w) ++ map obj (registered history).
Proof.
  unfold run. revert w.
  induction history as [|i rest IH]; intros w; [cbn; rewrite app_nil_r; reflexivity|].
  cbn [fold_left]. rewrite IH, step_objs, (registered_cons i rest).
  rewrite map_app, app_assoc. reflexivity.
Qed.

(** X8. The registry keeps registration order.  After any sequence of calls
    the registry holds the widgets it held before, followed by the widgets
    registered since, in the order of their registration: no reducer drops,
    duplicates or reorders a widget. *)
Theorem registry_keeps_registration_order :
  forall (history : list input) (w : world),
    map zmk_widget_status_obj (widgets (run w history))
    = map zmk_widget_status_obj (widgets w)
      ++ map zmk_widget_status_obj (registered history)
    /\ List.length (widgets (run w history))
       = (List.length (widgets w) + List.length (registered history))%nat.
Proof.
  intros history w.
  pose proof (run_objs history w) as E.
  split; [exact E|].
  apply (f_equal (@List.length nat)) in E.
  rewrite length_app, !length_map in E. exact E.
Qed.

Lemma battery_display (st : battery_status_state) (w : world) :
  display (battery_status_update_cb st w)
  = display w ++ map (fun widget => draw_top (obj widget) (state widget))
                   (widgets (battery_status_update_cb st w)).
Proof.
  unfold battery_status_update_cb. rewrite for_each_widget_map. cbn [widgets display].
  f_equal. rewrite map_map.
  induction (widgets w) as [|x rest IH]; [reflexivity|].
  cbn [flat_map map]. rewrite IH. reflexivity.
Qed.

Lemma output_display (st : output_status_state) (w : world) :
  display (output_status_update_cb st w)
  = display w ++ flat_map (fun widget => [ draw_top (obj widget) (state widget);
                                           draw_middle (obj widget) (state widget) ])
                   (widgets (output_status_update_cb st w)).
Proof.
  unfold output_status_update_cb. rewrite for_each_widget_map. cbn [widgets display].
  f_equal.
  induction (widgets w) as [|x rest IH]; [reflexivity|].
  cbn [flat_map map]. rewrite IH. reflexivity.
Qed.

Lemma layer_display (st : layer_status_state) (w : world) :
  display (layer_status_update_cb st w)
  = display w ++ map (fun widget => draw_bottom (obj widget) (state widget))
                   (widgets (layer_status_update_cb st w)).
Proof.
  unfold layer_status_update_cb. rewrite for_each_widget_map. cbn [widgets display].
  f_equal. rewrite map_map.
  induction (widgets w) as [|x rest IH]; [reflexivity|].
  cbn [flat_map map]. rewrite IH. reflexivity.
Qed.

(** What one call adds to the display log: redraws of registered widgets. *)
Lemma step_display (w : world) (i : input) :
  exists d, display (step w i) = display w ++ d
            /\ Forall (fun c => In (dc_obj c) (map obj (widgets (step w i)))) d.
Proof.
  destruct i as [widget | st | st | st | st now]; cbn [step].
  - exists []. split; [cbn; rewrite app_nil_r; reflexivity | constructor].
  - eexists. split; [apply battery_display|].
    apply Forall_map, Forall_forall. intros x Hx. cbn. apply in_map, Hx.
  - eexists. split; [apply output_display|].
    apply Forall_forall. intros c Hc. apply in_flat_map in Hc.
    destruct Hc as (x & Hx & [<- | [<- | []]]); cbn; apply in_map, Hx.
  - eexists. split; [apply layer_display|].
    apply Forall_map, Forall_forall. intros x Hx. cbn. apply in_map, Hx.
  - destruct (pressed st) eqn:Hp; [destruct (debounced now w) eqn:Hd|].
    + exists []. rewrite keypress_dropped by (right; exact Hd).
      split; [rewrite app_nil_r; reflexivity | constructor].
    + rewrite (keypress_accepted st now w Hp Hd). cbn [display widgets].
      eexists. split; [reflexivity|].
      apply Forall_map, Forall_forall. intros x Hx. cbn. apply in_map, Hx.
    + exists []. rewrite keypress_dropped by (left; exact Hp).
      split; [rewrite app_nil_r; reflexivity | constructor].
Qed.

(** X9. The display log is append-only, and only registered widgets are
    drawn.  After any sequence of calls the log is the earlier log followed
    by new redraws, each of them on the object of a widget that is in the
    registry. *)
Theorem display_log_append_only :
  forall (history : list input) (w : world),
    exists d : list draw_call,
      display (run w history) = display w ++ d
      /\ Forall (fun c => In (dc_obj c)
                            (map zmk_widget_status_obj (widgets (run w history)))) d.
Proof.
  induction history as [|i rest IH]; intros w.
  - exists []. split; [cbn; rewrite app_nil_r; reflexivity | constructor].
  - change (run w (i :: rest)) with (run (step w i) rest).
    destruct (IH (step w i)) as (d' & Ed' & Hd').
    destruct (step_display w i) as (d0 & Ed0 & Hd0).
    exists (d0 ++ d'). split.
    + rewrite Ed', Ed0, app_assoc. reflexivity.
    + apply Forall_app. split; [|exact Hd'].
      revert Hd0. apply Forall_impl. intros c Hc.
      change (map zmk_widget_status_obj) with (map obj).
      rewrite run_objs. apply in_or_app. left. exact Hc.
Qed.

(** X10. Each reducer writes the fields it owns and no others.  The battery
    reducer leaves the output, layer and keypress fields of every widget and
    the debounce statics as they were, and likewise for the output and layer
    reducers; a key event, accepted or not, leaves the battery, output and
    layer fields as they were. *)
Theorem reducers_write_only_their_fields :
  forall (w : world) (bst : battery_status_state) (ost : output_status_state)
         (lst : layer_status_state) (kst : keypress_status_state) (now : Z),
    (let w' := battery_status_update_cb bst w in
     map output_fields (widgets w') = map output_fields (widgets w)
     /\ map layer_fields (widgets w') = map layer_fields (widgets w)
     /\ map keypress_fields (widgets w') = map keypress_fields (widgets w)
     /\ last_keypress_render_ms w' = last_keypress_render_ms w
     /\ has_last_keypress_render w' = has_last_keypress_render w)
    /\ (let w' := output_status_update_cb ost w in
        map battery_fields (widgets w') = map battery_fields (widgets w)
        /\ map layer_fields (widgets w') = map layer_fields (widgets w)
        /\ map keypress_fields (widgets w') = map keypress_fields (widgets w)
        /\ last_keypress_render_ms w' = last_keypress_render_ms w
        /\ has_last_keypress_render w' = has_last_keypress_render w)
    /\ (let w' := layer_status_update_cb lst w in
        map battery_fields (widgets w') = map battery_fields (widgets w)
        /\ map output_fields (widgets w') = map output_fields (widgets w)
        /\ map keypress_fields (widgets w') = map keypress_fields (widgets w)
        /\ last_keypress_render_ms w' = last_keypress_render_ms w
        /\ has_last_keypress_render w' = has_last_keypress_render w)
    /\ (let w' := keypress_status_update_cb kst now w in
        map battery_fields (widgets w') = map battery_fields (widgets w)
        /\ map output_fields (widgets w') = map output_fields (widgets w)
        /\ map layer_fields (widgets w') = map layer_fields (widgets w)).
Proof.
  intros w bst ost lst kst now.
  split; [|split; [|split]]; cbv zeta.
  - rewrite battery_widgets, !map_map.
    repeat split.
    + exact (step_keeps_timestamp w (BatteryChanged bst) eq_refl).
    + exact (step_keeps_flag w (BatteryChanged bst) eq_refl).
  - rewrite output_widgets, !map_map.
    repeat split.
    + exact (step_keeps_timestamp w (OutputChanged ost) eq_refl).
    + exact (step_keeps_flag w (OutputChanged ost) eq_refl).
  - rewrite layer_widgets, !map_map.
    repeat split.
    + exact (step_keeps_timestamp w (LayerChanged lst) eq_refl).
    + exact (step_keeps_flag w (LayerChanged lst) eq_refl).
  - destruct (keypress_widgets kst now w) as [E|E]; rewrite E.
    + repeat split.
    + rewrite !map_map. repeat split.
Qed.

Lemma debounced_after_other (w : world) (i : input) (now : Z) :
  is_press i = false -> debounced now (step w i) = debounced now w.
Proof.
  intros Hi. unfold debounced.
  rewrite step_keeps_flag, step_keeps_timestamp by exact Hi. reflexivity.
Qed.

Lemma keypress_commutes_with (w : world) (i : input) (st : keypress_status_state)
    (now : Z) (f : zmk_widget_status -> zmk_widget_status) :
  is_press i = false ->
  (forall w0, widgets (step w0 i) = map f (widgets w0)) ->
  (forall x, f (keypress_applied st x) = keypress_applied st (f x)) ->
  widgets (keypress_status_update_cb st now (step w i))
  = widgets (step (keypress_status_update_cb st now w) i).
Proof.
  intros Hi Eall Hcomm.
  destruct (pressed st) eqn:Hp; [destruct (debounced now w) eqn:Hd|].
  - rewrite !keypress_dropped; [reflexivity | right; exact Hd |].
    right. rewrite debounced_after_other by exact Hi. exact Hd.
  - rewrite (keypress_accepted st now w Hp Hd).
    rewrite keypress_accepted;
      [|exact Hp | rewrite debounced_after_other by exact Hi; exact Hd].
    cbn [widgets]. rewrite !Eall. cbn [widgets].
    rewrite !map_map. apply map_ext. intros x. symmetry. apply Hcomm.
  - rewrite !keypress_dropped by (left; exact Hp). reflexivity.
Qed.

(** X11. Reducers of different kinds commute on the snapshots.  Whatever the
    order in which two of the battery, output, layer and keypress callbacks
    run, the widgets end up holding the same fields (only the order of the
    redraws in the log differs); the debounce decision of a key event is not
    affected by the other reducers. *)
Theorem reducers_commute_on_snapshots :
  forall (w : world) (bst : battery_status_state) (ost : output_status_state)
         (lst : layer_status_state) (kst : keypress_status_state) (now : Z),
    widgets (battery_status_update_cb bst (output_status_update_cb ost w))
    = widgets (output_status_update_cb ost (battery_status_update_cb bst w))
    /\ widgets (battery_status_update_cb bst (layer_status_update_cb lst w))
       = widgets (layer_status_update_cb lst (battery_status_update_cb bst w))
    /\ widgets (output_status_update_cb ost (layer_status_update_cb lst w))
       = widgets (layer_status_update_cb lst (output_status_update_cb ost w))
    /\ widgets (keypress_status_update_cb kst now (battery_status_update_cb bst w))
       = widgets (battery_status_update_cb bst (keypress_status_update_cb kst now w))
    /\ widgets (keypress_status_update_cb kst now (output_status_update_cb ost w))
       = widgets (output_status_update_cb ost (keypress_status_update_cb kst now w))
    /\ widgets (keypress_status_update_cb kst now (layer_status_update_cb lst w))
       = widgets (layer_status_update_cb lst (keypress_status_update_cb kst now w))
    /\ debounced now (battery_status_update_cb bst w) = debounced now w
    /\ debounced now (output_status_update_cb ost w) = debounced now w
    /\ debounced now (layer_status_update_cb lst w) = debounced now w.
Proof.
  intros w bst ost lst kst now.
  repeat split.
  - repeat first [rewrite battery_widgets | rewrite output_widgets].
    rewrite !map_map. reflexivity.
  - repeat first [rewrite battery_widgets | rewrite layer_widgets].
    rewrite !map_map. reflexivity.
  - repeat first [rewrite output_widgets | rewrite layer_widgets].
    rewrite !map_map. reflexivity.
  - apply (keypress_commutes_with w (BatteryChanged bst) kst now
             (fun x => fst (set_battery_status x bst)));
      [reflexivity | intros w0; apply battery_widgets | intros x; reflexivity].
  - apply (keypress_commutes_with w (OutputChanged ost) kst now
             (fun x => fst (set_output_status x ost)));
      [reflexivity | intros w0; apply output_widgets | intros x; reflexivity].
  - apply (keypress_commutes_with w (LayerChanged lst) kst now
             (fun x => fst (set_layer_status x lst)));
      [reflexivity | intros w0; apply layer_widgets | intros x; reflexivity].
  - exact (debounced_after_other w (BatteryChanged bst) now eq_refl).
  - exact (debounced_after_other w (OutputChanged ost) now eq_refl).
  - exact (debounced_after_other w (LayerChanged lst) now eq_refl).
Qed.

(** X12. No diffing against what is shown.  Running the battery, output or
    layer callback a second time with the same state leaves every snapshot
    as the first run left it, and yet redraws every widget's zones again:
    the log grows by the same redraws once more. *)
Theorem same_state_is_redrawn :
  forall (w : world) (bst : battery_status_state) (ost : output_status_state)
         (lst : layer_status_state),
    (let w1 := battery_status_update_cb bst w in
     let w2 := battery_status_update_cb bst w1 in
     widgets w2 = widgets w1
     /\ exists d, display w1 = display w ++ d
                  /\ display w2 = display w ++ d ++ d
                  /\ List.length d = List.length (widgets w))
    /\ (let w1 := output_status_update_cb ost w in
        let w2 := output_status_update_cb ost w1 in
        widgets w2 = widgets w1
        /\ exists d, display w1 = display w ++ d
                     /\ display w2 = display w ++ d ++ d
                     /\ List.length d = (2 * List.length (widgets w))%nat)
    /\ (let w1 := layer_status_update_cb lst w in
        let w2 := layer_status_update_cb lst w1 in
        widgets w2 = widgets w1
        /\ exists d, display w1 = display w ++ d
                     /\ display w2 = display w ++ d ++ d
                     /\ List.length d = List.length (widgets w)).
Proof.
  intros w bst ost lst.
  split; [|split]; cbv zeta.
  - assert (E : widgets (battery_status_update_cb bst (battery_status_update_cb bst w))
                = widgets (battery_status_update_cb bst w)).
    { rewrite !battery_widgets, map_map. apply map_ext. intros x. cbn.
      destruct CONFIG_USB_DEVICE_STACK; reflexivity. }
    split; [exact E|].
    eexists. split; [apply battery_display|]. split.
    + rewrite (battery_display bst (battery_status_update_cb bst w)), E.
      rewrite (battery_display bst w) at 1. rewrite <- app_assoc. reflexivity.
    + rewrite length_map, battery_widgets, length_map. reflexivity.
  - assert (E : widgets (output_status_update_cb ost (output_status_update_cb ost w))
                = widgets (output_status_update_cb ost w)).
    { rewrite !output_widgets, map_map. reflexivity. }
    split; [exact E|].
    eexists. split; [apply output_display|]. split.
    + rewrite (output_display ost (output_status_update_cb ost w)), E.
      rewrite (output_display ost w) at 1. rewrite <- app_assoc. reflexivity.
    + rewrite output_widgets.
      induction (widgets w) as [|x rest IH]; [reflexivity|].
      cbn [map flat_map List.length app]. rewrite IH. lia.
  - assert (E : widgets (layer_status_update_cb lst (layer_status_update_cb lst w))
                = widgets (layer_status_update_cb lst w)).
    { rewrite !layer_widgets, map_map. reflexivity. }
    split; [exact E|].
    eexists. split; [apply layer_display|]. split.
    + rewrite (layer_display lst (layer_status_update_cb lst w)), E.
      rewrite (layer_display lst w) at 1. rewrite <- app_assoc. reflexivity.
    + rewrite length_map, layer_widgets, length_map. reflexivity.
Qed.

(** ** Further properties of the debounce *)

(** X13. The debounce survives the wrap of the 32-bit uptime counter.  Let a
    press be accepted at reading [t1] and a second press arrive [d]
    milliseconds later, [d] below [2^32], so that the counter then reads
    [(t1 + d) mod 2^32], possibly less than [t1].  The second press is
    dropped when [d] is below 100 and accepted otherwise. *)
Theorem debounce_across_wraparound :
  forall (st1 st2 : keypress_status_state) (t1 d : Z) (w : world),
    pressed st1 = true ->
    pressed st2 = true ->
    debounced t1 w = false ->
    0 <= d < C.UINT32_MOD ->
    let w1 := keypress_status_update_cb st1 t1 w in
    let t2 := C.uint32 (t1 + d) in
    let w2 := keypress_status_update_cb st2 t2 w1 in
    (d < 100 -> w2 = w1)
    /\ (100 <= d ->
        widgets w2 = map (keypress_applied st2) (widgets w1)
        /\ last_keypress_render_ms w2 = t2
        /\ List.length (display w2)
           = (List.length (display w1) + List.length (widgets w1))%nat).
Proof.
  intros st1 st2 t1 d w Hp1 Hp2 Hd1 Hd w1 t2 w2.
  assert (E1 : w1 = _) by exact (keypress_accepted st1 t1 w Hp1 Hd1).
  assert (Hdeb : debounced t2 w1 = (d <? 100)).
  { unfold debounced, KEYPRESS_RENDER_INTERVAL_MS. rewrite E1. cbn.
    unfold t2. rewrite uint32_elapsed by exact Hd. reflexivity. }
  split.
  - intros Hlt. unfold w2. apply keypress_dropped. right.
    rewrite Hdeb. apply Z.ltb_lt, Hlt.
  - intros Hge.
    assert (Hd2 : debounced t2 w1 = false) by (rewrite Hdeb; apply Z.ltb_ge, Hge).
    unfold w2. rewrite (keypress_accepted st2 t2 w1 Hp2 Hd2). cbn.
    repeat split. rewrite length_app, !length_map. reflexivity.
Qed.

(** X14. A dropped press does not extend the window.  The timestamp is
    stored on accepted presses only, so a press dropped inside the window
    leaves the window measured from the last accepted press: a third press
    100 ms or more after the first is accepted however soon it follows the
    dropped one. *)
Theorem dropped_press_keeps_window :
  forall (st1 st2 st3 : keypress_status_state) (t1 t2 t3 : Z) (w : world),
    pressed st1 = true ->
    pressed st2 = true ->
    pressed st3 = true ->
    debounced t1 w = false ->
    C.uint32 (t2 - t1) < 100 ->
    100 <= C.uint32 (t3 - t1) ->
    let w1 := keypress_status_update_cb st1 t1 w in
    let w2 := keypress_status_update_cb st2 t2 w1 in
    let w3 := keypress_status_update_cb st3 t3 w2 in
    w2 = w1
    /\ last_keypress_render_ms w2 = t1
    /\ widgets w3 = map (keypress_applied st3) (widgets w1)
    /\ last_keypress_render_ms w3 = t3.
Proof.
  intros st1 st2 st3 t1 t2 t3 w Hp1 Hp2 Hp3 Hd1 H2 H3 w1 w2 w3.
  assert (E1 : w1 = _) by exact (keypress_accepted st1 t1 w Hp1 Hd1).
  assert (Hdeb : forall t, debounced t w1 = (C.uint32 (t - t1) <? 100))
    by (intros t; rewrite E1; reflexivity).
  assert (E2 : w2 = w1).
  { unfold w2. apply keypress_dropped. right. rewrite Hdeb. apply Z.ltb_lt, H2. }
  split; [exact E2|].
  split; [rewrite E2, E1; reflexivity|].
  assert (Hd3 : debounced t3 w1 = false) by (rewrite Hdeb; apply Z.ltb_ge, H3).
  unfold w3. rewrite E2, (keypress_accepted st3 t3 w1 Hp3 Hd3). cbn.
  split; reflexivity.
Qed.

Lemma step_keypress_fields (w : world) (i : input) :
  is_press i = false ->
  map keypress_fields (widgets (step w i))
  = map keypress_fields (widgets w) ++ map keypress_fields (registered [ i ]).
Proof.
  intros Hi. destruct i as [widget | st | st | st | st now];
    cbn [step registered flat_map map app].
  - cbn. rewrite map_app. reflexivity.
  - rewrite battery_widgets, map_map, app_nil_r. reflexivity.
  - rewrite output_widgets, map_map, app_nil_r. reflexivity.
  - rewrite layer_widgets, map_map, app_nil_r. reflexivity.
  - cbn in Hi. rewrite keypress_dropped by (left; exact Hi).
    rewrite app_nil_r. reflexivity.
Qed.

(** X15. Only a press changes what key is shown.  Through any sequence of
    calls none of which is a press (registrations, battery, output and layer
    updates, releases) every widget keeps the [last_key] and [show_last_key]
    it had, or was registered with. *)
Theorem key_shown_changes_only_on_press :
  forall (history : list input) (w : world),
    Forall (fun i => is_press i = false) history ->
    map keypress_fields (widgets (run w history))
    = map keypress_fields (widgets w) ++ map keypress_fields (registered history).
Proof.
  unfold run.
  induction history as [|i rest IH]; intros w H.
  - cbn. rewrite app_nil_r. reflexivity.
  - inversion H as [|? ? Hi Hrest]; subst.
    cbn [fold_left]. rewrite IH by exact Hrest.
    rewrite step_keypress_fields by exact Hi.
    rewrite (registered_cons i rest), map_app, app_assoc. reflexivity.
Qed.

(** ** Further properties of the zones *)

(** X16. The middle zone whatever the profile index.  Every redraw labels the
    five slots "1" to "5" in order; and when [active_profile_index] is not
    one of 0..4 there is no bounds fault and no slot is marked: all five slot
    states are false and no selection arc is drawn. *)
Theorem middle_zone_any_index :
  forall (widget : nat) (s : status_state),
    drawn_texts (draw_middle widget s) = [ "1"; "2"; "3"; "4"; "5" ]
    /\ (active_profile_index s < 0 \/ 4 < active_profile_index s ->
        slot_states s = [ false; false; false; false; false ]
        /\ selection_marks (draw_middle widget s) = []).
Proof.
  intros widget s. split.
  - unfold drawn_texts, draw_middle, draw_middle_slot.
    generalize (slot_selected s). intros sel. cbn.
    destruct (sel 0%nat), (sel 1%nat), (sel 2%nat), (sel 3%nat), (sel 4%nat);
      reflexivity.
  - intros Hout.
    assert (Hno : forall i : nat, (i < 5)%nat -> slot_selected s i = false).
    { intros i Hi. unfold slot_selected. apply Z.eqb_neq. lia. }
    unfold slot_states, selection_marks, draw_middle, draw_middle_slot.
    revert Hno. generalize (slot_selected s). intros sel Hno. cbn.
    rewrite !Hno by lia. split; reflexivity.
Qed.

Lemma top_texts (widget : nat) (s : status_state) :
  drawn_texts (draw_top widget s)
  = output_text s :: (if show_last_key s then [ last_key s ] else []).
Proof.
  unfold drawn_texts, draw_top. cbn. destruct (show_last_key s); reflexivity.
Qed.



(** ** Reading the device *)

(** X18. The connection glyph.  After the output listener has read the
    device and run its callback, every widget's top zone starts with one
    glyph: the USB symbol when USB is selected, whatever the BLE state; on
    BLE the settings symbol when the profile is open (connected or not), the
    close symbol when it is bonded and not connected, and when it is bonded
    and connected LVGL's bluetooth symbol, or the text "BT" when LVGL
    defines none.  The glyph fits [output_text[10]] when each of LVGL's
    symbols is shorter than ten bytes. *)
Theorem connection_glyph :
  forall (dev : device) (w : world),
    Forall (fun widget =>
              hd_error (drawn_texts (draw_top (obj widget) (state widget)))
              = Some (output_text (state widget))
              /\ output_text (state widget)
                 = match transport (zmk_endpoints_selected dev) with
                   | ZMK_TRANSPORT_USB => LV_SYMBOL_USB lvgl
                   | ZMK_TRANSPORT_BLE =>
                       if zmk_ble_active_profile_is_open dev
                       then LV_SYMBOL_SETTINGS lvgl
                       else if zmk_ble_active_profile_is_connected dev
                            then match LV_SYMBOL_BLUETOOTH lvgl with
                                 | Some symbol => symbol
                                 | None => "BT"
                                 end
                            else LV_SYMBOL_CLOSE lvgl
                   end
              /\ ((String.length (LV_SYMBOL_USB lvgl) < 10)%nat ->
                  (String.length (LV_SYMBOL_CLOSE lvgl) < 10)%nat ->
                  (String.length (LV_SYMBOL_SETTINGS lvgl) < 10)%nat ->
                  (forall symbol, LV_SYMBOL_BLUETOOTH lvgl = Some symbol ->
                                  (String.length symbol < 10)%nat) ->
                  C.sprintf_local 10 (output_text (state widget))
                  = Some (output_text (state widget))))
      (widgets (output_status_update_cb (output_status_get_state dev) w)).
Proof.
  intros dev w. rewrite output_widgets.
  apply Forall_map, Forall_forall. intros x _.
  split; [rewrite top_texts; reflexivity|].
  split.
  - unfold output_text, BLE_CONNECTED_SYMBOL. cbn.
    destruct (transport (zmk_endpoints_selected dev));
      destruct (zmk_ble_active_profile_is_open dev);
      destruct (zmk_ble_active_profile_is_connected dev); reflexivity.
  - intros Hu Hc Hs Hb. unfold C.sprintf_local.
    assert (Hfit : (String.length (output_text (state (fst (set_output_status x
                        (output_status_get_state dev))))) < 10)%nat).
    { unfold output_text, BLE_CONNECTED_SYMBOL. cbn.
      destruct (transport (zmk_endpoints_selected dev)); [exact Hu|].
      destruct (zmk_ble_active_profile_is_open dev); cbn; [exact Hs|].
      destruct (zmk_ble_active_profile_is_connected dev); [|exact Hc].
      destruct (LV_SYMBOL_BLUETOOTH lvgl) as [symbol|] eqn:E;
        [apply (Hb symbol eq_refl) | cbn; lia]. }
    apply Nat.ltb_lt in Hfit. rewrite Hfit. reflexivity.
Qed.

(** X19. Populating the snapshots from the device.  When the battery, output
    and layer listeners each read the device with no event and run their
    callbacks, every registered widget mirrors the device: charge (and USB
    power when that is compiled in), endpoint, profile index, connection,
    bonded as the negation of open, highest layer and its name; the key
    fields are left as they were.  A battery event's own state of charge
    takes precedence over the device's. *)
Theorem snapshots_mirror_device :
  forall (dev : device) (w : world) (soc : Z),
    let w' := layer_status_update_cb (layer_status_get_state dev)
                (output_status_update_cb (output_status_get_state dev)
                   (battery_status_update_cb (battery_status_get_state dev None) w)) in
    Forall (fun widget =>
              battery (state widget) = zmk_battery_state_of_charge dev
              /\ (CONFIG_USB_DEVICE_STACK = true ->
                  charging (state widget) = zmk_usb_is_powered dev)
              /\ selected_endpoint (state widget) = zmk_endpoints_selected dev
              /\ active_profile_index (state widget) = zmk_ble_active_profile_index dev
              /\ active_profile_connected (state widget)
                 = zmk_ble_active_profile_is_connected dev
              /\ active_profile_bonded (state widget)
                 = negb (zmk_ble_active_profile_is_open dev)
              /\ layer_index (state widget) = zmk_keymap_highest_layer_active dev
              /\ layer_label (state widget)
                 = zmk_keymap_layer_name dev
                     (zmk_keymap_layer_index_to_id dev
                        (zmk_keymap_highest_layer_active dev)))
      (widgets w')
    /\ map keypress_fields (widgets w') = map keypress_fields (widgets w)
    /\ Forall (fun widget => battery (state widget) = soc)
         (widgets (battery_status_update_cb (battery_status_get_state dev (Some soc)) w)).
Proof.
  intros dev w soc w'. unfold w'.
  rewrite layer_widgets, output_widgets, !battery_widgets, !map_map.
  split; [|split].
  - apply Forall_map, Forall_forall. intros x _. cbn.
    repeat split. intros ->. reflexivity.
  - reflexivity.
  - apply Forall_map, Forall_forall. intros x _. reflexivity.
Qed.

(** X20. A listener woken without a key event shows no key.  With no event
    [keypress_status_get_state] builds an unpressed state in either build,
    which the callback discards: nothing changes, at any uptime and whatever
    the debounce state.  With an event, [pressed] is the event's state, so a
    release event is discarded in the same way. *)
Theorem no_key_event_changes_nothing :
  forall (now : Z) (w : world)
         (ek : zmk_keycode_state_changed) (ep : zmk_position_state_changed),
    keypress_status_update_cb (keypress_status_get_state_keycode None) now w = w
    /\ keypress_status_update_cb (keypress_status_get_state_position None) now w = w
    /\ (ev_state ek = false ->
        keypress_status_update_cb (keypress_status_get_state_keycode (Some ek)) now w = w)
    /\ (ev_position_state ep = false ->
        keypress_status_update_cb (keypress_status_get_state_position (Some ep)) now w = w).
Proof.
  intros now w ek ep.
  split; [|split; [|split]].
  - apply keypress_dropped. left. reflexivity.
  - apply keypress_dropped. left. reflexivity.
  - intros H. apply keypress_dropped. left. exact H.
  - intros H. apply keypress_dropped. left. exact H.
Qed.

End Reducers.

(** ** The theorems at concrete inputs *)

Lemma shift_sensitivity_witness :
  (2 <= 10)%nat
  /\ format_key_label EmptyString 10 (key_bang true) = ("!", true)
  /\ format_key_label EmptyString 10
       (KeycodeEvent {| usage_page := 0x07; keycode := 0x1e;
                        implicit_modifiers := 0; explicit_modifiers := 0 |} true)
     = ("1", true).
Proof.
  assert (H : (2 <= 10)%nat) by lia.
  split; [exact H|]. split.
  - apply (shift_sensitivity EmptyString 10 0 (C.BIT 1) true); [reflexivity .. | exact H].
  - apply (shift_sensitivity EmptyString 10 0 0 true); [reflexivity .. | exact H].
Defined.

Lemma consumer_keyboard_asymmetry_witness :
  (6 <= 10)%nat
  /\ format_key_label EmptyString 10
       (KeycodeEvent {| usage_page := 0x0c; keycode := 0x99;
                        implicit_modifiers := 0; explicit_modifiers := 0 |} true)
     = ("MEDIA", true)
  /\ format_key_label EmptyString 10
       (KeycodeEvent {| usage_page := 0x07; keycode := 0x99;
                        implicit_modifiers := 0; explicit_modifiers := 0 |} true)
     = (EmptyString, false).
Proof.
  assert (H : (6 <= 10)%nat) by lia.
  split; [exact H|].
  destruct (consumer_keyboard_asymmetry EmptyString 10 0x99 0 0 true) as (_ & Hc & Hk).
  split.
  - apply Hc; [|exact H]. intros Hin. cbn in Hin.
    repeat (destruct Hin as [Hin|Hin]; [discriminate|]). exact Hin.
  - apply Hk.
    + intros Hin. cbn in Hin.
      repeat (destruct Hin as [Hin|Hin]; [discriminate|]). exact Hin.
    + lia.
Defined.

Lemma letter_range_witness :
  (2 <= 10)%nat /\ 0x04 <= 0x04 <= 0x1d /\ 0x04 <= 0x1d <= 0x1d
  /\ format_key_label EmptyString 10
       (KeycodeEvent {| usage_page := 0x07; keycode := 0x04;
                        implicit_modifiers := 0; explicit_modifiers := C.BIT 1 |} true)
     = ("A", true)
  /\ format_key_label EmptyString 10
       (KeycodeEvent {| usage_page := 0x07; keycode := 0x1d;
                        implicit_modifiers := C.BIT 5; explicit_modifiers := 0 |} true)
     = ("Z", true).
Proof.
  assert (H : (2 <= 10)%nat) by lia.
  assert (Ha : 0x04 <= 0x04 <= 0x1d) by lia.
  assert (Hz : 0x04 <= 0x1d <= 0x1d) by lia.
  split; [exact H|]. split; [exact Ha|]. split; [exact Hz|]. split.
  - apply (letter_range EmptyString 10 0x04 0 (C.BIT 1) true Ha); [exact H | reflexivity].
  - apply (letter_range EmptyString 10 0x1d (C.BIT 5) 0 true Hz); [exact H | reflexivity].
Defined.

Lemma release_preserves_world_witness :
  pressed (key_q false) = false
  /\ keypress_status_update_cb 10 68 lvgl_builtin_symbols (key_q false) 2000
       (keypress_status_update_cb 10 68 lvgl_builtin_symbols (key_bang true) 1000 one_widget_world)
     = keypress_status_update_cb 10 68 lvgl_builtin_symbols (key_bang true) 1000 one_widget_world.
Proof.
  split; [reflexivity|].
  apply (release_preserves_world 10 68 lvgl_builtin_symbols (key_q false) 2000). reflexivity.
Defined.

Lemma first_press_accepted_witness :
  Forall (fun i => is_press i = false)
    [ Register widget_a; LayerChanged {| index := 0; label := None |};
      KeyChanged (key_q false) 10 ]
  /\ pressed (key_q true) = true
  /\ map (fun widget => last_key (state widget))
       (widgets
          (keypress_status_update_cb 10 68 lvgl_builtin_symbols (key_q true) 50
             (run 10 68 true lvgl_builtin_symbols initial_world
                [ Register widget_a; LayerChanged {| index := 0; label := None |};
                  KeyChanged (key_q false) 10 ])))
     = [ "Q" ]
  /\ last_keypress_render_ms
       (keypress_status_update_cb 10 68 lvgl_builtin_symbols (key_q true) 50
          (run 10 68 true lvgl_builtin_symbols initial_world
             [ Register widget_a; LayerChanged {| index := 0; label := None |};
               KeyChanged (key_q false) 10 ]))
     = 50.
Proof.
  assert (Hhist : Forall (fun i => is_press i = false)
                    [ Register widget_a; LayerChanged {| index := 0; label := None |};
                      KeyChanged (key_q false) 10 ])
    by (repeat constructor).
  split; [exact Hhist|]. split; [reflexivity|]. split; [reflexivity|].
  apply (first_press_accepted 10 68 true lvgl_builtin_symbols _ (key_q true) 50 Hhist eq_refl).
Defined.

Lemma keypress_debounce_witness :
  pressed (key_q true) = true
  /\ pressed (key_bang true) = true
  /\ debounced 1000 one_widget_world = false
  /\ Forall (fun i => is_press i = false) [ KeyChanged (key_q false) 1020 ]
  /\ C.uint32 (1050 - 1000) < 100
  /\ 100 <= C.uint32 (1150 - 1000)
  /\ map keypress_fields
       (widgets (keypress_status_update_cb 10 68 lvgl_builtin_symbols (key_q true) 1000
                   one_widget_world))
     = [ ("Q", true) ]
  /\ map keypress_fields
       (widgets
          (keypress_status_update_cb 10 68 lvgl_builtin_symbols (key_bang true) 1050
             (run 10 68 true lvgl_builtin_symbols
                (keypress_status_update_cb 10 68 lvgl_builtin_symbols (key_q true) 1000
                   one_widget_world)
                [ KeyChanged (key_q false) 1020 ])))
     = [ ("Q", true) ]
  /\ List.length
       (display
          (keypress_status_update_cb 10 68 lvgl_builtin_symbols (key_bang true) 1050
             (run 10 68 true lvgl_builtin_symbols
                (keypress_status_update_cb 10 68 lvgl_builtin_symbols (key_q true) 1000
                   one_widget_world)
                [ KeyChanged (key_q false) 1020 ])))
     = 1%nat
  /\ last_keypress_render_ms
       (keypress_status_update_cb 10 68 lvgl_builtin_symbols (key_bang true) 1050
          (run 10 68 true lvgl_builtin_symbols
             (keypress_status_update_cb 10 68 lvgl_builtin_symbols (key_q true) 1000
                one_widget_world)
             [ KeyChanged (key_q false) 1020 ]))
     = 1000
  /\ map keypress_fields
       (widgets
          (keypress_status_update_cb 10 68 lvgl_builtin_symbols (key_bang true) 1150
             (run 10 68 true lvgl_builtin_symbols
                (keypress_status_update_cb 10 68 lvgl_builtin_symbols (key_q true) 1000
                   one_widget_world)
                [ KeyChanged (key_q false) 1020 ])))
     = [ ("!", true) ]
  /\ List.length
       (display
          (keypress_status_update_cb 10 68 lvgl_builtin_symbols (key_bang true) 1150
             (run 10 68 true lvgl_builtin_symbols
                (keypress_status_update_cb 10 68 lvgl_builtin_symbols (key_q true) 1000
                   one_widget_world)
                [ KeyChanged (key_q false) 1020 ])))
     = 2%nat
  /\ last_keypress_render_ms
       (keypress_status_update_cb 10 68 lvgl_builtin_symbols (key_bang true) 1150
          (run 10 68 true lvgl_builtin_symbols
             (keypress_status_update_cb 10 68 lvgl_builtin_symbols (key_q true) 1000
                one_widget_world)
             [ KeyChanged (key_q false) 1020 ]))
     = 1150.
Proof.
  assert (Hbetween : Forall (fun i => is_press i = false) [ KeyChanged (key_q false) 1020 ])
    by (repeat constructor).
  assert (Hnear : C.uint32 (1050 - 1000) < 100) by (vm_compute; reflexivity).
  assert (Hfar : 100 <= C.uint32 (1150 - 1000)) by (vm_compute; discriminate).
  destruct (keypress_debounce 10 68 true lvgl_builtin_symbols (key_q true) (key_bang true)
              1000 1050 one_widget_world _ eq_refl eq_refl eq_refl Hbetween)
    as ((Ew1 & _) & Hdrop & _).
  destruct (Hdrop Hnear) as (Esame & _ & Hms & _).
  destruct (keypress_debounce 10 68 true lvgl_builtin_symbols (key_q true) (key_bang true)
              1000 1150 one_widget_world _ eq_refl eq_refl eq_refl Hbetween)
    as (_ & _ & Haccept).
  destruct (Haccept Hfar) as (Ew2 & _ & Hms2 & _ & Edisp).
  split; [reflexivity|]. split; [reflexivity|]. split; [reflexivity|].
  split; [exact Hbetween|]. split; [exact Hnear|]. split; [exact Hfar|].
  split; [rewrite Ew1; reflexivity|].
  split; [rewrite Esame; reflexivity|].
  split; [rewrite Esame; reflexivity|].
  split; [exact Hms|].
  split; [rewrite Ew2; reflexivity|].
  split; [rewrite Edisp; reflexivity|].
  exact Hms2.
Defined.

Lemma positional_fallback_witness :
  (4 <= 10)%nat
  /\ ARRAY_SIZE_default_key_labels <= 46 < C.UINT32_MOD
  /\ (String.length ("K" ++ C.fmt_uint 46) < 10)%nat
  /\ format_key_label EmptyString 10 (PositionEvent 0 true) = ("TAB", true)
  /\ format_key_label EmptyString 10 (PositionEvent 46 true) = (EmptyString, false)
  /\ last_key (state (fst (set_keypress_status 10 68 lvgl_builtin_symbols widget_a (PositionEvent 46 true))))
     = "K46".
Proof.
  assert (Hlen : (4 <= 10)%nat) by lia.
  assert (Hpos : ARRAY_SIZE_default_key_labels <= 46 < C.UINT32_MOD)
    by (split; [discriminate | reflexivity]).
  assert (Hfit : (String.length ("K" ++ C.fmt_uint 46) < 10)%nat) by (cbn; lia).
  split; [exact Hlen|]. split; [exact Hpos|]. split; [exact Hfit|].
  destruct (positional_fallback 10 68 lvgl_builtin_symbols EmptyString 10 46 true widget_a Hlen Hpos)
    as (_ & Htab & _ & Hun & _ & Hk & _).
  split; [exact Htab|]. split; [exact Hun|]. exact (Hk Hfit).
Defined.

Lemma layer_label_fallback_witness :
  layer_label zeroed_state = None
  /\ drawn_texts (draw_bottom 68 1
       {| battery := 0; charging := false;
          selected_endpoint := selected_endpoint zeroed_state;
          active_profile_index := 0; active_profile_connected := false;
          active_profile_bonded := false;
          layer_index := 3; layer_label := None;
          last_key := EmptyString; show_last_key := false |}) = [ "LAYER 3" ]
  /\ drawn_texts (draw_bottom 68 1
       {| battery := 0; charging := false;
          selected_endpoint := selected_endpoint zeroed_state;
          active_profile_index := 0; active_profile_connected := false;
          active_profile_bonded := false;
          layer_index := 3; layer_label := Some "NAV";
          last_key := EmptyString; show_last_key := false |}) = [ "NAV" ].
Proof.
  split; [reflexivity|]. split.
  - refine (proj1 (proj2 (proj1 (layer_label_fallback 68 1 _) _)) _).
    + left. reflexivity.
    + reflexivity.
  - refine (proj2 (layer_label_fallback 68 1 _) "NAV" _ _).
    + reflexivity.
    + discriminate.
Defined.

Lemma profile_selection_exclusive_witness :
  0 <= active_profile_index zeroed_state <= 4
  /\ slot_states zeroed_state = [ true; false; false; false; false ]
  /\ count_occ bool_dec (slot_states zeroed_state) true = 1%nat.
Proof.
  assert (H : 0 <= active_profile_index zeroed_state <= 4) by (cbn; lia).
  split; [exact H|]. split; [reflexivity|].
  apply (profile_selection_exclusive 68 1 zeroed_state H).
Defined.



(** ** The further properties at concrete inputs *)

Lemma format_key_label_within_buffer_witness :
  (String.length EmptyString < 3)%nat
  /\ format_key_label EmptyString 3 (PositionEvent 39 true) = ("EN", true)
  /\ (String.length (fst (format_key_label EmptyString 3 (PositionEvent 39 true))) < 3)%nat.
Proof.
  assert (H : (String.length EmptyString < 3)%nat) by (cbn; lia).
  split; [exact H|]. split; [reflexivity|].
  apply (format_key_label_within_buffer EmptyString 3 (PositionEvent 39 true) H).
Defined.

Lemma labels_fit_six_bytes_witness :
  (6 <= 10)%nat
  /\ format_key_label EmptyString 10 (PositionEvent 39 true)
     = format_key_label EmptyString 6 (PositionEvent 39 true).
Proof.
  assert (H : (6 <= 10)%nat) by lia.
  split; [exact H|].
  apply (labels_fit_six_bytes EmptyString 10 (PositionEvent 39 true) H).
Defined.

Lemma label_depends_on_shift_only_witness :
  ~ In 0x28 shift_sensitive_ids
  /\ format_key_label EmptyString 10
       (KeycodeEvent {| usage_page := 0x07; keycode := 0x28;
                        implicit_modifiers := 0; explicit_modifiers := 0 |} true)
     = format_key_label EmptyString 10
         (KeycodeEvent {| usage_page := 0x07; keycode := 0x28;
                          implicit_modifiers := C.BIT 1; explicit_modifiers := C.BIT 5 |}
                       false).
Proof.
  assert (Hns : ~ In 0x28 shift_sensitive_ids).
  { intros Hin. cbn in Hin.
    repeat (destruct Hin as [Hin|Hin]; [discriminate|]). exact Hin. }
  split; [exact Hns|].
  apply label_depends_on_shift_only; [reflexivity | reflexivity |].
  right. left. exact Hns.
Defined.

Lemma unmatched_keycode_shows_KEY_witness :
  (4 <= 10)%nat
  /\ last_key (state (fst (set_keypress_status 10 68 lvgl_builtin_symbols widget_a
                             (KeycodeEvent {| usage_page := 0x01; keycode := 0x30;
                                              implicit_modifiers := 0;
                                              explicit_modifiers := 0 |} true))))
     = "KEY".
Proof.
  assert (H : (4 <= 10)%nat) by lia.
  split; [exact H|].
  apply (unmatched_keycode_shows_KEY 10 68 lvgl_builtin_symbols widget_a
           {| usage_page := 0x01; keycode := 0x30;
              implicit_modifiers := 0; explicit_modifiers := 0 |} true H).
  left. split; discriminate.
Defined.

Lemma position_in_table_shows_label_witness :
  (6 <= 10)%nat
  /\ 0 <= 45 < ARRAY_SIZE_default_key_labels
  /\ nth_error default_key_labels (Z.to_nat 45)
     = Some (last_key (state (fst (set_keypress_status 10 68 lvgl_builtin_symbols widget_a
                                     (PositionEvent 45 true))))).
Proof.
  assert (H : (6 <= 10)%nat) by lia.
  assert (Hp : 0 <= 45 < ARRAY_SIZE_default_key_labels)
    by (split; [discriminate | reflexivity]).
  split; [exact H|]. split; [exact Hp|].
  apply (position_in_table_shows_label 10 68 lvgl_builtin_symbols widget_a 45 true H Hp).
Defined.

Lemma last_key_stays_within_capacity_witness :
  Forall (fun widget => (String.length (last_key (state widget)) < 10)%nat)
    (widgets (run 10 68 true lvgl_builtin_symbols initial_world
                [ Register widget_a; KeyChanged (PositionEvent 4000000000 true) 5 ]))
  /\ map (fun widget => last_key (state widget))
       (widgets (run 10 68 true lvgl_builtin_symbols initial_world
                   [ Register widget_a; KeyChanged (PositionEvent 4000000000 true) 5 ]))
     = [ "K40000000" ].
Proof.
  split; [|reflexivity].
  apply (last_key_stays_within_capacity 10 68 true lvgl_builtin_symbols).
  - constructor.
  - repeat constructor.
Defined.

Lemma debounce_across_wraparound_witness :
  C.uint32 (4294967290 + 50) = 44
  /\ keypress_status_update_cb 10 68 lvgl_builtin_symbols (key_bang true) 44
       (keypress_status_update_cb 10 68 lvgl_builtin_symbols (key_q true) 4294967290 one_widget_world)
     = keypress_status_update_cb 10 68 lvgl_builtin_symbols (key_q true) 4294967290 one_widget_world.
Proof.
  split; [reflexivity|].
  assert (Hd : 0 <= 50 < C.UINT32_MOD) by (split; [discriminate | reflexivity]).
  apply (debounce_across_wraparound 10 68 lvgl_builtin_symbols (key_q true) (key_bang true) 4294967290 50
           one_widget_world eq_refl eq_refl eq_refl Hd).
  reflexivity.
Defined.

Lemma dropped_press_keeps_window_witness :
  C.uint32 (1060 - 1000) < 100
  /\ 100 <= C.uint32 (1120 - 1000)
  /\ C.uint32 (1120 - 1060) < 100
  /\ last_keypress_render_ms
       (keypress_status_update_cb 10 68 lvgl_builtin_symbols (key_q true) 1120
          (keypress_status_update_cb 10 68 lvgl_builtin_symbols (key_bang true) 1060
             (keypress_status_update_cb 10 68 lvgl_builtin_symbols (key_q true) 1000 one_widget_world)))
     = 1120.
Proof.
  assert (H2 : C.uint32 (1060 - 1000) < 100) by reflexivity.
  assert (H3 : 100 <= C.uint32 (1120 - 1000)) by discriminate.
  split; [exact H2|]. split; [exact H3|]. split; [reflexivity|].
  apply (dropped_press_keeps_window 10 68 lvgl_builtin_symbols (key_q true) (key_bang true) (key_q true)
           1000 1060 1120 one_widget_world eq_refl eq_refl eq_refl eq_refl H2 H3).
Defined.

Lemma key_shown_changes_only_on_press_witness :
  Forall (fun i => is_press i = false)
    [ KeyChanged (key_bang false) 1500; Register widget_b;
      LayerChanged {| index := 1; label := None |} ]
  /\ map keypress_fields
       (widgets (run 10 68 true lvgl_builtin_symbols
                   (keypress_status_update_cb 10 68 lvgl_builtin_symbols (key_q true) 1000 one_widget_world)
                   [ KeyChanged (key_bang false) 1500; Register widget_b;
                     LayerChanged {| index := 1; label := None |} ]))
     = [ ("Q", true); (EmptyString, false) ].
Proof.
  assert (H : Forall (fun i => is_press i = false)
                [ KeyChanged (key_bang false) 1500; Register widget_b;
                  LayerChanged {| index := 1; label := None |} ])
    by (repeat constructor).
  split; [exact H|].
  rewrite (key_shown_changes_only_on_press 10 68 true lvgl_builtin_symbols _ _ H). reflexivity.
Defined.

Lemma middle_zone_any_index_witness :
  (active_profile_index no_profile_state < 0 \/ 4 < active_profile_index no_profile_state)
  /\ slot_states no_profile_state = [ false; false; false; false; false ]
  /\ selection_marks (draw_middle 68 1 no_profile_state) = [].
Proof.
  assert (H : active_profile_index no_profile_state < 0
              \/ 4 < active_profile_index no_profile_state) by (left; reflexivity).
  split; [exact H|].
  apply (middle_zone_any_index 68 1 no_profile_state). exact H.
Defined.


Lemma connection_glyph_witness :
  Forall (fun widget =>
            output_text lvgl_symbols_without_bluetooth (state widget) = "BT"
            /\ C.sprintf_local 10 (output_text lvgl_symbols_without_bluetooth (state widget))
               = Some "BT")
    (widgets (output_status_update_cb 68 lvgl_symbols_without_bluetooth
                (output_status_get_state bench_device)
                {| widgets := [ widget_a; widget_c ];
                   last_keypress_render_ms := 0;
                   has_last_keypress_render := false;
                   display := [] |})).
Proof.
  pose proof (connection_glyph 68 lvgl_symbols_without_bluetooth bench_device
                {| widgets := [ widget_a; widget_c ];
                   last_keypress_render_ms := 0;
                   has_last_keypress_render := false;
                   display := [] |}) as H.
  revert H. apply Forall_impl. intros x (_ & Hglyph & Hfit).
  assert (E : output_text lvgl_symbols_without_bluetooth (state x) = "BT")
    by (rewrite Hglyph; reflexivity).
  split; [exact E|].
  rewrite Hfit.
  - rewrite E. reflexivity.
  - cbn. lia.
  - cbn. lia.
  - cbn. lia.
  - intros symbol Hs. discriminate Hs.
Defined.

Lemma snapshots_mirror_device_witness :
  map keypress_fields
    (widgets
       (layer_status_update_cb 68 (layer_status_get_state bench_device)
          (output_status_update_cb 68 lvgl_builtin_symbols (output_status_get_state bench_device)
             (battery_status_update_cb 68 true lvgl_builtin_symbols
                (battery_status_get_state true bench_device None) one_widget_world))))
  = map keypress_fields (widgets one_widget_world)
  /\ Forall (fun widget => battery (state widget) = 55)
       (widgets (battery_status_update_cb 68 true lvgl_builtin_symbols
                   (battery_status_get_state true bench_device (Some 55))
                   one_widget_world)).
Proof.
  exact (proj2 (snapshots_mirror_device 68 true lvgl_builtin_symbols bench_device one_widget_world 55)).
Defined.

Lemma no_key_event_changes_nothing_witness :
  ev_state {| ev_usage_page := 0x07; ev_keycode := 0x14;
              ev_implicit_modifiers := 0; ev_explicit_modifiers := 0;
              ev_state := false |} = false
  /\ keypress_status_update_cb 10 68 lvgl_builtin_symbols
       (keypress_status_get_state_keycode
          (Some {| ev_usage_page := 0x07; ev_keycode := 0x14;
                   ev_implicit_modifiers := 0; ev_explicit_modifiers := 0;
                   ev_state := false |})) 1000 one_widget_world
     = one_widget_world.
Proof.
  split; [reflexivity|].
  apply (no_key_event_changes_nothing 10 68 lvgl_builtin_symbols 1000 one_widget_world
           {| ev_usage_page := 0x07; ev_keycode := 0x14;
              ev_implicit_modifiers := 0; ev_explicit_modifiers := 0;
              ev_state := false |}
           {| ev_position := 0; ev_position_state := false |}).
  reflexivity.
Defined.
